(** * Outlook draft creator (src/main.py): a shallow embedding

    The program reads a contact sheet, renders a subject and a body per
    contact, optionally asks a text service for one more sentence, posts a
    draft to the mail API, appends one row to a CSV log and paces itself.

    Everything the program does to the outside world (console, HTTP, files,
    the MSAL application object, [time.sleep]) is threaded through a state
    and exception monad [M]; everything the outside world answers (HTTP
    responses, the template engine, MSAL results, the process environment)
    is a field of an [environment] that every statement quantifies over. *)

From Stdlib Require Import ZArith NArith Ascii String Lia.
From stdpp Require Import gmap strings list fin_maps pretty.

Local Open Scope Z_scope.

(** ** Python values *)

(** A Python [str] is a sequence of code points; [len] is [length]. *)
Abbreviation pystr := (list N).

(** ASCII literals of the source text. *)
Definition lit (s : string) : pystr :=
  (fun a : ascii => N_of_ascii a) <$> list_ascii_of_string s.

(** The values that travel through the program: spreadsheet cells (strings,
    numbers, booleans, NaN for an empty cell) and decoded JSON (the same
    scalars, lists and objects).  Numbers are kept integral. *)
#[warnings="-register-all"]
Inductive pyval :=
| VNone
| VBool (b : bool)
| VInt (z : Z)
| VNaN
| VStr (s : list N)
| VList (l : list pyval)
| VDict (d : gmap (list N) pyval).

Abbreviation dict := (gmap (list N) pyval).

(** [bool(v)]: what [if v:] and [not v] test. *)
Definition truthy (v : pyval) : bool :=
  match v with
  | VNone => false
  | VBool b => b
  | VInt z => negb (z =? 0)
  | VNaN => true
  | VStr s => match s with [] => false | _ => true end
  | VList l => match l with [] => false | _ => true end
  | VDict d => negb (bool_decide (d = ∅))
  end.

(** [pd.isna] on a cell: true for the missing-value markers only. *)
Definition isna (v : pyval) : bool :=
  match v with
  | VNone | VNaN => true
  | _ => false
  end.

(** [d.get(key, default)] on a dict. *)
Definition get (d : gmap (list N) pyval) (key : list N) (default : pyval) : pyval :=
  match d !! key with
  | Some v => v
  | None => default
  end.

(** ** Exceptions *)

(** Only subclasses of [Exception] are modelled: the ones the interpreter
    raises for a bad subscript or attribute, [ValueError], [OverflowError],
    and whatever a library (requests, json, jinja2, msal) raises, kept by
    class name and description. *)
Inductive exn :=
| KeyError (key : pyval)
| IndexError
| TypeError (on : pyval)
| AttributeError (on : pyval) (attr : list N)
| ValueError (what : list N)
| OverflowError
| LibraryError (cls : list N) (description : list N).

Inductive outcome (A : Type) :=
| Returned (a : A)
| Raised (e : exn).
Arguments Returned {A} a.
Arguments Raised {A} e.

(** [v[k]] *)
Definition subscript (v k : pyval) : outcome pyval :=
  match v, k with
  | VDict d, VStr key =>
      match d !! key with
      | Some x => Returned x
      | None => Raised (KeyError k)
      end
  | VDict _, _ => Raised (KeyError k)
  | VList l, VInt i =>
      let n := Z.of_nat (length l) in
      if (0 <=? i) && (i <? n) then
        match l !! Z.to_nat i with Some x => Returned x | None => Raised IndexError end
      else if (- n <=? i) && (i <? 0) then
        match l !! Z.to_nat (n + i) with Some x => Returned x | None => Raised IndexError end
      else Raised IndexError
  | VStr s, VInt i =>
      let n := Z.of_nat (length s) in
      if (0 <=? i) && (i <? n) then
        match s !! Z.to_nat i with Some c => Returned (VStr [c]) | None => Raised IndexError end
      else if (- n <=? i) && (i <? 0) then
        match s !! Z.to_nat (n + i) with Some c => Returned (VStr [c]) | None => Raised IndexError end
      else Raised IndexError
  | _, _ => Raised (TypeError v)
  end.

(** [v.get(key, default)] on an arbitrary value: only dicts have [get]. *)
Definition get_method (v : pyval) (key : list N) (default : pyval) : outcome pyval :=
  match v with
  | VDict d => Returned (get d key default)
  | _ => Raised (AttributeError v (lit "get"))
  end.

(** ** [str.strip()] *)

(** The code points [str.strip()] removes (Unicode white space). *)
Definition is_space (c : N) : bool :=
  ((9 <=? c) && (c <=? 13) || (28 <=? c) && (c <=? 32)
   || (c =? 133) || (c =? 160) || (c =? 5760)
   || (8192 <=? c) && (c <=? 8202)
   || (c =? 8232) || (c =? 8233) || (c =? 8239) || (c =? 8287)
   || (c =? 12288))%N.

Fixpoint lstrip (s : list N) : list N :=
  match s with
  | c :: rest => if is_space c then lstrip rest else s
  | [] => []
  end.

Definition rstrip (s : list N) : list N := rev (lstrip (rev s)).

Definition strip (s : list N) : list N := rstrip (lstrip s).

(** [v.strip()] on an arbitrary value. *)
Definition strip_method (v : pyval) : outcome (list N) :=
  match v with
  | VStr s => Returned (strip s)
  | _ => Raised (AttributeError v (lit "strip"))
  end.

(** ** The outside world *)

(** One [requests.post] call. *)
Record http_request := HttpRequest {
  req_url : pystr;
  req_headers : list (pystr * pystr);
  req_json : pyval;
  req_timeout : option Z
}.

(** What [requests.post] hands back: [status_code], [text], and what
    calling [.json()] on it gives. *)
Record http_response := HttpResponse {
  status_code : Z;
  text : pystr;
  json : outcome pyval
}.

(** A file is a sequence of writes: text written at once, or rows written
    by a [csv.writer]. *)
Inductive file_record :=
| Text (s : pystr)
| CsvRow (fields : list pyval).

(** Calls made on the MSAL application object. *)
Inductive msal_call :=
| Deserialize (content : list file_record)
| Serialize
| GetAccounts
| AcquireTokenSilent (scopes : list pystr) (account : pyval)
| InitiateDeviceFlow (scopes : list pystr)
| AcquireTokenByDeviceFlow (flow : dict).

(** The lines the program prints, one constructor per [print] of the
    source, carrying the values interpolated into it. *)
Inductive console_line :=
| SayExcelNotFound (path : pystr)
| SayLoaded (contacts : nat)
| SayExcelError (e : exn)
| SayDeviceFlowFailed
| SaySignIn (verification_uri : pyval)
| SayEnterCode (user_code : pyval)
| SayAuthFailed (error_description : pyval)
| SayAuthExit
| SayAuthOk
| SayRenderError (e : exn)
| SayAIFailed (e : exn)
| SaySkip (row_number : Z)
| SayCreating (email : pyval)
| SayDraftOk (draft_id : pyval)
| SayDraftFailed (error : pyval)
| SayWaiting (delay_ms : Z)
| SayComplete (log_csv : pystr).

(** The mutable state: the creator object's token, and the effects so far
    (oldest first). *)
Record world := World {
  access_token : pyval;
  console : list console_line;
  posted : list http_request;
  files : gmap pystr (list file_record);
  msal_calls : list msal_call;
  slept : list Z
}.

(** The answers of the outside world. *)
Record environment := Environment {
  (** [requests.post], given the requests already made *)
  requests_post : list http_request -> http_request -> outcome http_response;
  (** [Template(text).render], the row passed as keyword arguments *)
  jinja2_render : pystr -> dict -> outcome pystr;
  (** [os.getenv] *)
  getenv : pystr -> option pystr;
  (** [pd.read_excel(file, sheet_name=sheet)], one dict per row *)
  read_excel : list file_record -> pystr -> outcome (list dict);
  msal_deserialize : list file_record -> outcome unit;
  msal_serialize : list msal_call -> pystr;
  msal_get_accounts : outcome (list pyval);
  msal_acquire_token_silent : pyval -> outcome pyval;
  msal_initiate_device_flow : outcome dict;
  msal_acquire_token_by_device_flow : dict -> outcome dict;
  (** [str(e)] *)
  str_exn : exn -> pystr;
  (** [str(v)] of a list or a dict *)
  str_container : pyval -> pystr
}.

(** ** The monad of the program: state and exceptions *)

Definition M (A : Type) : Type := world -> outcome A * world.

Definition ret {A} (a : A) : M A := fun w => (Returned a, w).

Definition raise {A} (e : exn) : M A := fun w => (Raised e, w).

Definition bind {A B} (m : M A) (k : A -> M B) : M B :=
  fun w =>
    match m w with
    | (Returned a, w') => k a w'
    | (Raised e, w') => (Raised e, w')
    end.

(** [try: m  except Exception as e: handler e] *)
Definition try_except {A} (m : M A) (handler : exn -> M A) : M A :=
  fun w =>
    match m w with
    | (Returned a, w') => (Returned a, w')
    | (Raised e, w') => handler e w'
    end.

(** The result of a pure step that may raise. *)
Definition lift {A} (o : outcome A) : M A := fun w => (o, w).

Definition gets {A} (f : world -> A) : M A := fun w => (Returned (f w), w).

Definition modify (f : world -> world) : M unit := fun w => (Returned tt, f w).

Notation "'let*' x ':=' m 'in' k" := (bind m (fun x => k))
  (at level 10, x name, m at level 100, k at level 200).
Notation "m ;;; k" := (bind m (fun _ => k))
  (at level 100, k at level 200, right associativity).

(** *** Primitive effects *)

(** The world after one more printed line, request, token assignment, file
    write, MSAL call or pause. *)
Definition printed (l : console_line) (w : world) : world :=
  World (access_token w) (console w ++ [l]) (posted w)
        (files w) (msal_calls w) (slept w).

Definition requested (r : http_request) (w : world) : world :=
  World (access_token w) (console w) (posted w ++ [r])
        (files w) (msal_calls w) (slept w).

Definition token_set (tok : pyval) (w : world) : world :=
  World tok (console w) (posted w) (files w) (msal_calls w) (slept w).

Definition file_set (path : pystr) (content : list file_record) (w : world) : world :=
  World (access_token w) (console w) (posted w)
        (<[path := content]> (files w)) (msal_calls w) (slept w).

Definition msal_called (c : msal_call) (w : world) : world :=
  World (access_token w) (console w) (posted w)
        (files w) (msal_calls w ++ [c]) (slept w).

Definition paused (delay_ms : Z) (w : world) : world :=
  World (access_token w) (console w) (posted w)
        (files w) (msal_calls w) (slept w ++ [delay_ms]).

Definition print (l : console_line) : M unit := modify (printed l).

Definition set_access_token (tok : pyval) : M unit := modify (token_set tok).

Definition set_file (path : pystr) (content : list file_record) : M unit :=
  modify (file_set path content).

Definition msal (c : msal_call) : M unit := modify (msal_called c).

(** [os.path.exists(path)] *)
Definition path_exists (path : pystr) : M bool :=
  gets (fun w => bool_decide (is_Some (files w !! path))).

(** [delay_ms / 1000.0]: an [int] converts to a [float] only when it rounds
    to a finite one, that is below [2^1024 - 2^970] in absolute value;
    otherwise the division raises [OverflowError].  The seconds are kept as
    the milliseconds they were computed from. *)
Definition FLOAT_LIMIT : Z := 2 ^ 1024 - 2 ^ 970.

Definition to_seconds (delay_ms : Z) : M Z :=
  if FLOAT_LIMIT <=? Z.abs delay_ms then raise OverflowError
  else ret delay_ms.

(** [time.sleep(delay_seconds)]: the length is first converted to a signed
    64-bit count of nanoseconds, which raises [OverflowError] beyond
    9223372036854 ms on either side of zero; then a negative length raises
    [ValueError]; otherwise the process pauses. *)
Definition SLEEP_MAX_MS : Z := 9223372036854.

Definition sleep_ms (delay_ms : Z) : M unit :=
  if SLEEP_MAX_MS <? Z.abs delay_ms then raise OverflowError
  else if delay_ms <? 0 then
    raise (ValueError (lit "sleep length must be non-negative"))
  else modify (paused delay_ms).

(** ** Constants of the source *)

Definition SUBJECT_TEXT : pystr :=
  lit "PASTE YOUR SUBJECT HERE (you may include {{placeholders}})".

Definition BODY_TEXT : pystr :=
  lit "PASTE YOUR BODY HERE EXACTLY.
You may reference Excel fields like {{first_name}}, {{company}}, {{role}}, {{observation}}.
If you don't want placeholders, leave plain text.
".

Definition AUTHORITY : pystr := lit "https://login.microsoftonline.com/common".
Definition SCOPES : list pystr := [lit "Mail.ReadWrite"; lit "offline_access"].
Definition GRAPH_ENDPOINT : pystr := lit "https://graph.microsoft.com/v1.0".
Definition TOKEN_CACHE_FILE : pystr := lit "token_cache.bin".

(** The two URLs the program posts to. *)
Definition messages_url : pystr := GRAPH_ENDPOINT ++ lit "/me/messages".
Definition completions_url : pystr := lit "https://api.openai.com/v1/chat/completions".

(** Building a dict display [{k1: v1, ...}]: later keys win. *)
Definition make_dict (items : list (pystr * pyval)) : dict :=
  foldl (fun d kv => <[kv.1 := kv.2]> d) ∅ items.

(** The header row of the log. *)
Definition header_row : file_record :=
  CsvRow (VStr <$> [lit "email"; lit "company"; lit "first_name";
                    lit "subject"; lit "draft_id"; lit "status"]).

(** ** The program *)

Section Program.

Context (E : environment).

(** [str(v)], as an f-string interpolates a value. *)
Definition format_value (v : pyval) : pystr :=
  match v with
  | VNone => lit "None"
  | VBool true => lit "True"
  | VBool false => lit "False"
  | VInt z => lit (pretty z)
  | VNaN => lit "nan"
  | VStr s => s
  | VList _ | VDict _ => str_container E v
  end.

(** [requests.post(url, headers=..., json=..., timeout=...)] *)
Definition post (r : http_request) : M http_response :=
  fun w => (requests_post E (posted w) r, requested r w).

(** *** class OutlookDraftCreator *)

Definition _load_token_cache : M unit :=
  let* fs := gets files in
  match fs !! TOKEN_CACHE_FILE with
  | Some cache_data =>
      msal (Deserialize cache_data) ;;;
      lift (msal_deserialize E cache_data)
  | None => ret tt
  end.

Definition _save_token_cache : M unit :=
  let* calls := gets msal_calls in
  let cache_data := msal_serialize E calls in
  msal Serialize ;;;
  set_file TOKEN_CACHE_FILE [Text cache_data].

(** [__init__]: the token starts as [None], then the cache is loaded. *)
Definition init_creator : M unit :=
  set_access_token VNone ;;;
  _load_token_cache.

Definition authenticate : M bool :=
  let device_flow : M bool :=
    msal (InitiateDeviceFlow SCOPES) ;;;
    let* flow := lift (msal_initiate_device_flow E) in
    if negb (bool_decide (is_Some (flow !! lit "user_code"))) then
      print SayDeviceFlowFailed ;;;
      ret false
    else
      let* uri := lift (subscript (VDict flow) (VStr (lit "verification_uri"))) in
      print (SaySignIn uri) ;;;
      let* code := lift (subscript (VDict flow) (VStr (lit "user_code"))) in
      print (SayEnterCode code) ;;;
      msal (AcquireTokenByDeviceFlow flow) ;;;
      let* result := lift (msal_acquire_token_by_device_flow E flow) in
      if bool_decide (is_Some (result !! lit "access_token")) then
        let* tok := lift (subscript (VDict result) (VStr (lit "access_token"))) in
        set_access_token tok ;;;
        _save_token_cache ;;;
        ret true
      else
        print (SayAuthFailed (get result (lit "error_description")
                                  (VStr (lit "Unknown error")))) ;;;
        ret false
  in
  msal GetAccounts ;;;
  let* accounts := lift (msal_get_accounts E) in
  match accounts with
  | account0 :: _ =>
      msal (AcquireTokenSilent SCOPES account0) ;;;
      let* result := lift (msal_acquire_token_silent E account0) in
      if truthy result then
        let* tok := lift (subscript result (VStr (lit "access_token"))) in
        set_access_token tok ;;;
        _save_token_cache ;;;
        ret true
      else device_flow
  | [] => device_flow
  end.

(** The [headers] and [payload] locals of [create_draft], and the request
    it posts. *)
Definition draft_headers (tok : pyval) : list (pystr * pystr) :=
  [(lit "Authorization", lit "Bearer " ++ format_value tok);
   (lit "Content-Type", lit "application/json")].

Definition draft_payload (email : pyval) (subject body : pystr) : pyval :=
  VDict (make_dict
    [(lit "subject", VStr subject);
     (lit "body", VDict (make_dict [(lit "contentType", VStr (lit "Text"));
                                    (lit "content", VStr body)]));
     (lit "toRecipients",
      VList [VDict (make_dict
        [(lit "emailAddress",
          VDict (make_dict [(lit "address", email)]))])])]).

Definition draft_request (tok email : pyval) (subject body : pystr) : http_request :=
  HttpRequest messages_url (draft_headers tok) (draft_payload email subject body) None.

Definition create_draft (email : pyval) (subject body : pystr) : M dict :=
  let* tok := gets access_token in
  if negb (truthy tok) then
    ret (make_dict [(lit "status", VStr (lit "error"));
                    (lit "error", VStr (lit "No access token"))])
  else
    try_except
      (let* response := post (draft_request tok email subject body) in
       if status_code response =? 201 then
         let* result := lift (json response) in
         let* draft_id := lift (get_method result (lit "id") (VStr (lit "unknown"))) in
         ret (make_dict [(lit "status", VStr (lit "success"));
                         (lit "draft_id", draft_id);
                         (lit "error", VNone)])
       else
         ret (make_dict
                [(lit "status", VStr (lit "error"));
                 (lit "error",
                  VStr (lit "HTTP " ++ format_value (VInt (status_code response))
                        ++ lit ": " ++ text response))]))
      (fun e =>
         ret (make_dict [(lit "status", VStr (lit "error"));
                         (lit "error", VStr (str_exn E e))])).

(** The f-string of [personalize_with_ai]. *)
Definition nl : pystr := [10%N].

Definition prompt_of (row_data : dict) : pystr :=
  let field k := format_value (get row_data (lit k) (VStr [])) in
  lit "Based on this contact info, write a brief, personalized sentence (max 35 words) to add to a cold email:" ++ nl
  ++ lit "        Name: " ++ field "first_name" ++ lit " " ++ field "last_name" ++ nl
  ++ lit "        Company: " ++ field "company" ++ nl
  ++ lit "        Role: " ++ field "role" ++ nl
  ++ lit "        Observation: " ++ field "observation" ++ nl
  ++ lit "        " ++ nl
  ++ lit "        Write a natural, genuine-sounding personalization:".

(** [result["choices"][0]["message"]["content"]] *)
Definition completion_content (result : pyval) : outcome pyval :=
  match subscript result (VStr (lit "choices")) with
  | Raised e => Raised e
  | Returned choices =>
      match subscript choices (VInt 0) with
      | Raised e => Raised e
      | Returned choice =>
          match subscript choice (VStr (lit "message")) with
          | Raised e => Raised e
          | Returned message => subscript message (VStr (lit "content"))
          end
      end
  end.

(** [result["choices"][0]["message"]["content"].strip()] *)
Definition completion_of (result : pyval) : outcome pystr :=
  match completion_content result with
  | Raised e => Raised e
  | Returned content => strip_method content
  end.

(** [if len(p) > 200: p = p[:197] + "..."] *)
Definition shorten (personalization : pystr) : pystr :=
  if (200 <? length personalization)%nat
  then take 197 personalization ++ lit "..."
  else personalization.

(** The request [personalize_with_ai] posts. *)
Definition completion_request (openai_api_key prompt : pystr) : http_request :=
  HttpRequest completions_url
    [(lit "Authorization", lit "Bearer " ++ openai_api_key);
     (lit "Content-Type", lit "application/json")]
    (VDict (make_dict
       [(lit "model", VStr (lit "gpt-3.5-turbo"));
        (lit "messages",
         VList [VDict (make_dict [(lit "role", VStr (lit "user"));
                                  (lit "content", VStr prompt)])]);
        (lit "max_tokens", VInt 50)]))
    (Some 10).

Definition personalize_with_ai (row_data : dict) : M pystr :=
  match getenv E (lit "OPENAI_API_KEY") with
  | None | Some [] => ret []
  | Some openai_api_key =>
      let prompt := prompt_of row_data in
      let* returned :=
        try_except
          (let* response := post (completion_request openai_api_key prompt) in
           if status_code response =? 200 then
             let* result := lift (json response) in
             let* personalization := lift (completion_of result) in
             ret (Some (nl ++ nl ++ shorten personalization))
           else ret None)
          (fun e => print (SayAIFailed e) ;;; ret None) in
      match returned with
      | Some s => ret s
      | None => ret []
      end
  end.

(** *** Module-level functions *)

Definition render_template (template_text : pystr) (row_data : dict) : M pystr :=
  try_except
    (lift (jinja2_render E template_text row_data))
    (fun e => print (SayRenderError e) ;;; ret template_text).

(** [writer.writerow] on a file opened for appending. *)
Definition writerow (path : pystr) (fields : file_record) : M unit :=
  let* fs := gets files in
  set_file path (default [] (fs !! path) ++ [fields]).

Definition log_result (csv_file : pystr) (email company first_name : pyval)
    (subject : pystr) (draft_id status : pyval) : M unit :=
  let* file_exists := path_exists csv_file in
  (* open(csv_file, 'a') creates the file when it is missing *)
  let* fs := gets files in
  set_file csv_file (default [] (fs !! csv_file)) ;;;
  (if negb file_exists then writerow csv_file header_row else ret tt) ;;;
  writerow csv_file
    (CsvRow [email; company; first_name; VStr subject; draft_id; status]).

(** The parsed command line. *)
Record arguments := Arguments {
  excel : pystr;
  sheet : pystr;
  from_name : pystr;
  from_email : pystr;
  delay_ms : Z;
  log_csv : pystr;
  ai_personalize : bool;
  client_id : pystr
}.

(** [v == "literal"] *)
Definition eq_str (v : pyval) (s : pystr) : bool :=
  match v with
  | VStr t => bool_decide (t = s)
  | _ => false
  end.

(** The cleaning loop: every missing value becomes the empty string. *)
Definition clean (row : dict) : dict :=
  (fun value => if isna value then VStr [] else value) <$> row.

(** The body of the [for index, row in df.iterrows()] loop, for a frame of
    [len_df] rows. *)
Definition process_contact (args : arguments) (len_df : nat) (index : Z)
    (row : dict) : M unit :=
  let row_data := clean row in
  let* subject := render_template SUBJECT_TEXT row_data in
  let* body := render_template BODY_TEXT row_data in
  let* body :=
    (if ai_personalize args then
       let* personalization := personalize_with_ai row_data in
       ret (if truthy (VStr personalization) then body ++ personalization else body)
     else ret body) in
  let email := get row_data (lit "email") (VStr []) in
  if negb (truthy email) then
    print (SaySkip (index + 1))
  else
    print (SayCreating email) ;;;
    let* result := create_draft email subject body in
    let* status := lift (subscript (VDict result) (VStr (lit "status"))) in
    log_result (log_csv args) email
      (get row_data (lit "company") (VStr []))
      (get row_data (lit "first_name") (VStr []))
      subject
      (get result (lit "draft_id") (VStr []))
      status ;;;
    (if eq_str status (lit "success") then
       let* draft_id := lift (subscript (VDict result) (VStr (lit "draft_id"))) in
       print (SayDraftOk draft_id)
     else
       print (SayDraftFailed (get result (lit "error") (VStr (lit "Unknown error"))))) ;;;
    if index <? Z.of_nat len_df - 1 then
      let* delay_seconds := to_seconds (delay_ms args) in
      print (SayWaiting delay_seconds) ;;;
      sleep_ms delay_seconds
    else ret tt.

(** The loop itself, from row number [index] on. *)
Fixpoint process_contacts (args : arguments) (len_df : nat) (index : Z)
    (rows : list dict) : M unit :=
  match rows with
  | [] => ret tt
  | row :: rest =>
      process_contact args len_df index row ;;;
      process_contacts args len_df (index + 1) rest
  end.

Definition main (args : arguments) : M unit :=
  let* excel_exists := path_exists (excel args) in
  if negb excel_exists then
    print (SayExcelNotFound (excel args))
  else
    let* loaded :=
      try_except
        (let* fs := gets files in
         let* df := lift (read_excel E (default [] (fs !! excel args)) (sheet args)) in
         print (SayLoaded (length df)) ;;;
         ret (Some df))
        (fun e => print (SayExcelError e) ;;; ret None) in
    match loaded with
    | None => ret tt
    | Some df =>
        init_creator ;;;
        let* authenticated := authenticate in
        if negb authenticated then
          print SayAuthExit
        else
          print SayAuthOk ;;;
          process_contacts args (length df) 0 df ;;;
          print (SayComplete (log_csv args))
    end.

End Program.

(** ** Fixtures *)

(** An environment that answers every request with [answer], renders every
    template to itself, has [api_key] as [OPENAI_API_KEY], and holds one
    cached account whose silent acquisition gives [silent]. *)
Definition fixture_environment (answer : outcome http_response)
    (api_key : option pystr) (silent : pyval) : environment :=
  Environment
    (fun _ _ => answer)
    (fun template_text _ => Returned template_text)
    (fun name => if bool_decide (name = lit "OPENAI_API_KEY") then api_key else None)
    (fun _ _ => Returned [])
    (fun _ => Returned tt)
    (fun _ => lit "serialized-cache")
    (Returned [VDict (make_dict [(lit "username", VStr (lit "user@example.com"))])])
    (fun _ => Returned silent)
    (Raised (LibraryError (lit "ConnectionError") (lit "offline")))
    (fun _ => Raised (LibraryError (lit "ConnectionError") (lit "offline")))
    (fun e => match e with
              | LibraryError _ description => description
              | _ => lit "error"
              end)
    (fun _ => lit "...").

(** The same, with a template engine that rejects every template. *)
Definition failing_renderer (E : environment) : environment :=
  Environment
    (requests_post E)
    (fun _ _ => Raised (LibraryError (lit "TemplateSyntaxError") (lit "unexpected end of template")))
    (getenv E) (read_excel E) (msal_deserialize E) (msal_serialize E)
    (msal_get_accounts E) (msal_acquire_token_silent E)
    (msal_initiate_device_flow E) (msal_acquire_token_by_device_flow E)
    (str_exn E) (str_container E).

(** A fresh process, and one whose creator holds a token. *)
Definition fresh_world : world := World VNone [] [] ∅ [] [].
Definition signed_in_world : world := World (VStr (lit "eyJ0-token")) [] [] ∅ [] [].

(** The 201 answer of the mail API with the body [{"id": "AAMk-example"}]. *)
Definition dq : pystr := [34%N].

Definition created_response : http_response :=
  HttpResponse 201
    (lit "{" ++ dq ++ lit "id" ++ dq ++ lit ": " ++ dq ++ lit "AAMk-example" ++ dq ++ lit "}")
    (Returned (VDict (make_dict [(lit "id", VStr (lit "AAMk-example"))]))).

(** A 201 answer whose JSON object has no [id]. *)
Definition created_without_id : http_response :=
  HttpResponse 201
    (lit "{" ++ dq ++ lit "subject" ++ dq ++ lit ": " ++ dq ++ lit "hello" ++ dq ++ lit "}")
    (Returned (VDict (make_dict [(lit "subject", VStr (lit "hello"))]))).

(** A throttled and a failing service. *)
Definition throttled_response : http_response :=
  HttpResponse 429 (lit "Too Many Requests")
    (Raised (LibraryError (lit "JSONDecodeError") (lit "Expecting value"))).

Definition server_error_response : http_response :=
  HttpResponse 500 (lit "Internal Server Error")
    (Raised (LibraryError (lit "JSONDecodeError") (lit "Expecting value"))).

(** A chat completion carrying [content]. *)
Definition completion_response (content : pystr) : http_response :=
  HttpResponse 200 []
    (Returned (VDict (make_dict
       [(lit "choices",
         VList [VDict (make_dict
           [(lit "message",
             VDict (make_dict [(lit "role", VStr (lit "assistant"));
                               (lit "content", VStr content)]))])])]))).

(** A 200 answer without the [choices] array. *)
Definition malformed_completion : http_response :=
  HttpResponse 200 []
    (Returned (VDict (make_dict [(lit "error", VStr (lit "overloaded"))]))).

(** Contacts: two with an address, one whose [email] cell is empty. *)
Definition ada : dict :=
  make_dict [(lit "email", VStr (lit "ada@example.com"));
             (lit "first_name", VStr (lit "Ada"));
             (lit "company", VStr (lit "Analytical Engines"))].

Definition nobody : dict :=
  make_dict [(lit "email", VNaN);
             (lit "first_name", VStr (lit "Nobody"));
             (lit "company", VNaN)].

Definition grace : dict :=
  make_dict [(lit "email", VStr (lit "grace@example.com"));
             (lit "first_name", VStr (lit "Grace"));
             (lit "company", VStr (lit "Navy"))].

Definition fixture_arguments (delay : Z) (ai : bool) : arguments :=
  Arguments (lit "contacts.xlsx") (lit "Sheet1") (lit "Me") (lit "me@example.com")
            delay (lit "log.csv") ai (lit "client-id").

(** Printed skip notices, and the rows of a file that are not the header. *)
Definition is_skip (l : console_line) : bool :=
  match l with
  | SaySkip _ => true
  | _ => false
  end.

Definition skip_notices (w : world) : list console_line :=
  filter (fun l => is_skip l = true) (console w).

(** The draft submissions among the requests made. *)
Definition draft_submissions (w : world) : list http_request :=
  filter (fun r => req_url r = messages_url) (posted w).

(** A file after more rows were appended: what was there, or a fresh
    header, followed by the rows. *)
Definition with_rows (fs : gmap pystr (list file_record)) (path : pystr)
    (rows : list file_record) : gmap pystr (list file_record) :=
  <[path := match fs !! path with
            | Some old => old
            | None => [header_row]
            end ++ rows]> fs.

Definition with_row (fs : gmap pystr (list file_record)) (path : pystr)
    (row : file_record) : gmap pystr (list file_record) :=
  with_rows fs path [row].

(** An audit row. *)
Definition audit_row (email company first_name : pyval) (subject : pystr)
    (draft_id : pyval) (status : pystr) : file_record :=
  CsvRow [email; company; first_name; VStr subject; draft_id; VStr status].



(** The two dicts [create_draft] can return. *)
Definition success_result (draft_id : pyval) : gmap (list N) pyval :=
  make_dict [(lit "status", VStr (lit "success"));
             (lit "draft_id", draft_id);
             (lit "error", VNone)].

Definition failure_result (detail : list N) : gmap (list N) pyval :=
  make_dict [(lit "status", VStr (lit "error"));
             (lit "error", VStr detail)].

(** The [email] the loop body tests. *)
Definition email_of (row : dict) : pyval :=
  get (clean row) (lit "email") (VStr []).

(** Whether [time.sleep] accepts a delay, and what the rate limiting
    raises when it does not. *)
Definition sleep_accepts (delay_ms : Z) : bool :=
  (0 <=? delay_ms) && (delay_ms <=? SLEEP_MAX_MS).

Definition pause_error (delay_ms : Z) : exn :=
  if SLEEP_MAX_MS <? Z.abs delay_ms then OverflowError
  else ValueError (lit "sleep length must be non-negative").

(** The end of a turn: the pause, when more rows follow. *)
Definition pace (args : arguments) (len_df : nat) (index : Z) (w : world)
    : outcome unit * world :=
  if index <? Z.of_nat len_df - 1 then
    if FLOAT_LIMIT <=? Z.abs (delay_ms args) then
      (Raised OverflowError, w)
    else if SLEEP_MAX_MS <? Z.abs (delay_ms args) then
      (Raised OverflowError, printed (SayWaiting (delay_ms args)) w)
    else if delay_ms args <? 0 then
      (Raised (ValueError (lit "sleep length must be non-negative")),
       printed (SayWaiting (delay_ms args)) w)
    else
      (Returned tt, paused (delay_ms args) (printed (SayWaiting (delay_ms args)) w))
  else (Returned tt, w).

(** The world after [log_result] appended [row] to the log at [path]. *)
Definition row_logged (path : pystr) (row : file_record) (w : world) : world :=
  World (access_token w) (console w) (posted w)
        (with_row (files w) path row) (msal_calls w) (slept w).

(** [w'] is [w] up to printed lines other than skip notices and requests
    other than draft submissions. *)
Definition chatter (w w' : world) : Prop :=
  access_token w' = access_token w /\ files w' = files w /\
  msal_calls w' = msal_calls w /\ slept w' = slept w /\
  skip_notices w' = skip_notices w /\
  draft_submissions w' = draft_submissions w.

(** ** Closed forms

    What the two network-facing methods return and leave behind, written
    out by cases on the answer to their one request; the section on runs
    proves them equal to the methods. *)

Section ClosedForms.

Context (E : environment).

(** What a call to [personalize_with_ai] with a configured key returns and
    leaves behind, by the answer to its one request. *)
Definition personalize_result (key : list N) (row_data : gmap (list N) pyval)
    (w : world) : outcome (list N) * world :=
  let r := completion_request key (prompt_of E row_data) in
  match requests_post E (posted w) r with
  | Raised e => (Returned [], printed (SayAIFailed e) (requested r w))
  | Returned response =>
      if status_code response =? 200 then
        match json response with
        | Raised e => (Returned [], printed (SayAIFailed e) (requested r w))
        | Returned result =>
            match completion_of result with
            | Raised e => (Returned [], printed (SayAIFailed e) (requested r w))
            | Returned personalization =>
                (Returned (nl ++ nl ++ shorten personalization), requested r w)
            end
        end
      else (Returned [], requested r w)
  end.

(** What [create_draft] returns, by the answer to its request. *)
Definition create_draft_result (response : outcome http_response) : gmap (list N) pyval :=
  match response with
  | Raised e => failure_result (str_exn E e)
  | Returned response =>
      if status_code response =? 201 then
        match json response with
        | Raised e => failure_result (str_exn E e)
        | Returned result =>
            match get_method result (lit "id") (VStr (lit "unknown")) with
            | Raised e => failure_result (str_exn E e)
            | Returned draft_id => success_result draft_id
            end
        end
      else
        failure_result (lit "HTTP " ++ format_value E (VInt (status_code response))
                        ++ lit ": " ++ text response)
  end.

End ClosedForms.

(** ** Counting over a batch *)




(** A file after a batch appended [rows]: untouched when there are none. *)
Definition append_rows (fs : gmap pystr (list file_record)) (path : pystr)
    (rows : list file_record) : gmap pystr (list file_record) :=
  match rows with
  | [] => fs
  | _ => with_rows fs path rows
  end.

(** [a] is an audit row of the contact [row]. *)
Definition audit_of (row : dict) (a : file_record) : Prop :=
  exists subject draft_id status,
    a = audit_row (email_of row)
          (get (clean row) (lit "company") (VStr []))
          (get (clean row) (lit "first_name") (VStr []))
          subject draft_id status
    /\ (status = lit "success" \/ status = lit "error").

(** [request.json["toRecipients"][0]["emailAddress"]["address"]] *)
Definition recipient_of (r : http_request) : outcome pyval :=
  match subscript (req_json r) (VStr (lit "toRecipients")) with
  | Raised e => Raised e
  | Returned recipients =>
      match subscript recipients (VInt 0) with
      | Raised e => Raised e
      | Returned recipient =>
          match subscript recipient (VStr (lit "emailAddress")) with
          | Raised e => Raised e
          | Returned address => subscript address (VStr (lit "address"))
          end
      end
  end.

(** ** The message a turn prepares *)

Section Prepared.

Context (E : environment).

(** What [render_template] returns, and the world it leaves. *)
Definition rendered (template_text : pystr) (row_data : dict) : pystr :=
  match jinja2_render E template_text row_data with
  | Returned s => s
  | Raised _ => template_text
  end.

Definition render_noted (template_text : pystr) (row_data : dict) (w : world) : world :=
  match jinja2_render E template_text row_data with
  | Returned _ => w
  | Raised e => printed (SayRenderError e) w
  end.

(** The subject, the body and the world when the loop body reaches the
    test of [email]. *)
Definition prepared (args : arguments) (row : dict) (w : world)
    : pystr * pystr * world :=
  let row_data := clean row in
  let subject := rendered SUBJECT_TEXT row_data in
  let body := rendered BODY_TEXT row_data in
  let wa := render_noted BODY_TEXT row_data (render_noted SUBJECT_TEXT row_data w) in
  if ai_personalize args then
    match personalize_with_ai E row_data wa with
    | (Returned personalization, wb) => (subject, body ++ personalization, wb)
    | (Raised _, wb) => (subject, body, wb)
    end
  else (subject, body, wa).

(** The world when the device flow starts: the calls made on the way. *)
Definition silent_attempt : list msal_call :=
  match msal_get_accounts E with
  | Returned (account0 :: _) => [GetAccounts; AcquireTokenSilent SCOPES account0]
  | _ => [GetAccounts]
  end.

(** No cached account yields a token silently. *)
Definition no_silent_token : Prop :=
  msal_get_accounts E = Returned []
  \/ exists account0 others result,
       msal_get_accounts E = Returned (account0 :: others)
       /\ msal_acquire_token_silent E account0 = Returned result
       /\ truthy result = false.

End Prepared.

(** The world after more MSAL calls and printed lines. *)
Definition msal_called_all (calls : list msal_call) (w : world) : world :=
  World (access_token w) (console w) (posted w)
        (files w) (msal_calls w ++ calls) (slept w).

Definition printed_all (lines : list console_line) (w : world) : world :=
  World (access_token w) (console w ++ lines) (posted w)
        (files w) (msal_calls w) (slept w).

(** ** More fixtures *)

(** An environment with no cached account, whose device flow starts with
    [flow] and ends with [result]; its sheet holds [rows]. *)
Definition device_flow_environment (flow result : outcome dict)
    (rows : list dict) : environment :=
  Environment
    (fun _ _ => Returned created_response)
    (fun template_text _ => Returned template_text)
    (fun _ => None)
    (fun _ _ => Returned rows)
    (fun _ => Returned tt)
    (fun _ => lit "serialized-cache")
    (Returned [])
    (fun _ => Returned VNone)
    flow
    (fun _ => result)
    (fun e => match e with
              | LibraryError _ description => description
              | _ => lit "error"
              end)
    (fun _ => lit "...").

Definition pending_flow : dict :=
  make_dict [(lit "user_code", VStr (lit "ABCD-1234"));
             (lit "verification_uri", VStr (lit "https://microsoft.com/devicelogin"))].

Definition granted : dict :=
  make_dict [(lit "access_token", VStr (lit "eyJ0-token"))].

Definition declined : dict :=
  make_dict [(lit "error", VStr (lit "authorization_declined"));
             (lit "error_description", VStr (lit "The user declined."))].

(** 201 answers whose body is not a JSON object: the JSON list [[]], and a
    body that does not decode. *)
Definition created_with_list : http_response :=
  HttpResponse 201 (lit "[]") (Returned (VList [])).

Definition created_undecodable : http_response :=
  HttpResponse 201 (lit "Created")
    (Raised (LibraryError (lit "JSONDecodeError") (lit "Expecting value"))).

(** A world that holds the contact sheet. *)
Definition with_sheet (w : world) : world :=
  file_set (lit "contacts.xlsx") [Text (lit "sheet")] w.

(** * Properties *)

(** ** Strings *)

Lemma lstrip_head (s : list N) c rest :
  lstrip s = c :: rest -> is_space c = false.
Proof.
  induction s as [|a s IH]; simpl; [discriminate|].
  destruct (is_space a) eqn:Ha; [exact IH|].
  intros [= <- _]. exact Ha.
Qed.

Lemma lstrip_suffix (s : list N) : exists spaces, s = spaces ++ lstrip s.
Proof.
  induction s as [|a s [sp IH]]; simpl.
  - exists []. reflexivity.
  - destruct (is_space a).
    + exists (a :: sp). simpl. congruence.
    + exists []. reflexivity.
Qed.

(** Stripping the right end keeps the first character of a string that
    starts with a non-space. *)
Lemma lstrip_rev_keeps (c : N) (s : list N) :
  is_space c = false ->
  exists t, rev (lstrip (rev (c :: s))) = c :: t.
Proof.
  intros Hc.
  destruct (lstrip_suffix (rev (c :: s))) as [sp Hsp].
  assert (Hrev : c :: s = rev (lstrip (rev (c :: s))) ++ rev sp).
  { rewrite <- rev_app_distr, <- Hsp, rev_involutive. reflexivity. }
  destruct (rev (lstrip (rev (c :: s)))) as [|d t] eqn:Hd.
  - exfalso.
    assert (Hl : lstrip (rev (c :: s)) = []).
    { rewrite <- (rev_involutive (lstrip _)), Hd. reflexivity. }
    simpl in Hl.
    clear -Hl Hc.
    assert (Hgen : forall u, lstrip (u ++ [c]) <> []).
    { induction u as [|a u IH]; simpl.
      - rewrite Hc. discriminate.
      - destruct (is_space a); [exact IH|discriminate]. }
    exact (Hgen _ Hl).
  - simpl in Hrev. injection Hrev as -> _. exists t. reflexivity.
Qed.

Lemma strip_head (s : list N) c rest :
  strip s = c :: rest -> is_space c = false.
Proof.
  unfold strip, rstrip. intros H.
  destruct (lstrip s) as [|d u] eqn:Hs; [discriminate|].
  pose proof (lstrip_head _ _ _ Hs) as Hd.
  destruct (lstrip_rev_keeps d u Hd) as [t Ht].
  rewrite Ht in H. injection H as <- _. exact Hd.
Qed.

Lemma lstrip_split (s : list N) :
  exists spaces, s = spaces ++ lstrip s /\ forallb is_space spaces = true.
Proof.
  induction s as [|a s (sp & IH & Hsp)]; simpl.
  - exists []. split; reflexivity.
  - destruct (is_space a) eqn:Ha.
    + exists (a :: sp). simpl. rewrite Ha, Hsp. split; [congruence|reflexivity].
    + exists []. split; reflexivity.
Qed.

Lemma forallb_rev (f : N -> bool) (l : list N) :
  forallb f (rev l) = forallb f l.
Proof.
  induction l as [|a l IH]; simpl; [reflexivity|].
  rewrite forallb_app, IH. simpl. rewrite andb_true_r. apply andb_comm.
Qed.

Lemma strip_split (s : list N) :
  exists before after,
    s = before ++ strip s ++ after
    /\ forallb is_space before = true /\ forallb is_space after = true.
Proof.
  destruct (lstrip_split s) as (before & Hs & Hbefore).
  destruct (lstrip_split (rev (lstrip s))) as (sp & Hr & Hsp).
  exists before, (rev sp). unfold strip, rstrip.
  split; [|split; [exact Hbefore|rewrite forallb_rev; exact Hsp]].
  rewrite <- rev_app_distr, <- Hr, rev_involutive. exact Hs.
Qed.

Lemma shorten_length (s : list N) : (length (shorten s) <= 200)%nat.
Proof.
  unfold shorten. destruct (200 <? length s)%nat eqn:H.
  - apply Nat.ltb_lt in H. rewrite length_app, length_take.
    change (length (lit "...")) with 3%nat. lia.
  - apply Nat.ltb_ge in H. exact H.
Qed.

Lemma shorten_head (s : list N) c rest :
  shorten s = c :: rest -> exists rest', s = c :: rest'.
Proof.
  unfold shorten. destruct (200 <? length s)%nat eqn:H.
  - destruct s as [|d s']; [discriminate|]. simpl. intros [= <- _]. eauto.
  - eauto.
Qed.

(** ** Dictionaries built by the program *)

Lemma truthy_nonempty_dict (d : gmap (list N) pyval) (k : list N) (v : pyval) :
  d !! k = Some v -> truthy (VDict d) = true.
Proof.
  intros H. simpl. apply negb_true_iff, bool_decide_eq_false.
  intros ->. rewrite lookup_empty in H. discriminate.
Qed.

Lemma success_result_status id :
  success_result id !! lit "status" = Some (VStr (lit "success")).
Proof. reflexivity. Qed.

Lemma success_result_draft_id id :
  success_result id !! lit "draft_id" = Some id.
Proof. reflexivity. Qed.

Lemma failure_result_status detail :
  failure_result detail !! lit "status" = Some (VStr (lit "error")).
Proof. reflexivity. Qed.

Lemma failure_result_draft_id detail :
  failure_result detail !! lit "draft_id" = None.
Proof. reflexivity. Qed.

Lemma failure_result_error detail :
  failure_result detail !! lit "error" = Some (VStr detail).
Proof. reflexivity. Qed.

(** ** What each function does to the world *)

Section Runs.

Context (E : environment).

Lemma render_template_run (template_text : list N) (row_data : gmap (list N) pyval) (w : world) :
  render_template E template_text row_data w =
  match jinja2_render E template_text row_data with
  | Returned s => (Returned s, w)
  | Raised e => (Returned template_text, printed (SayRenderError e) w)
  end.
Proof.
  unfold render_template, try_except, lift.
  destruct (jinja2_render E template_text row_data); reflexivity.
Qed.

Lemma personalize_with_ai_run (row_data : gmap (list N) pyval) (w : world) :
  personalize_with_ai E row_data w =
  match getenv E (lit "OPENAI_API_KEY") with
  | None | Some [] => (Returned [], w)
  | Some key => personalize_result E key row_data w
  end.
Proof.
  unfold personalize_with_ai, personalize_result.
  destruct (getenv E (lit "OPENAI_API_KEY")) as [[|c key]|]; try reflexivity.
  unfold bind, try_except, post, lift, ret.
  destruct (requests_post E (posted w) _) as [response|e]; [|reflexivity].
  destruct (status_code response =? 200); [|reflexivity].
  destruct (json response) as [result|e]; [|reflexivity].
  destruct (completion_of result); reflexivity.
Qed.

Lemma create_draft_run (email : pyval) (subject body : list N) (w : world) :
  create_draft E email subject body w =
  if truthy (access_token w) then
    let r := draft_request E (access_token w) email subject body in
    (Returned (create_draft_result E (requests_post E (posted w) r)), requested r w)
  else (Returned (failure_result (lit "No access token")), w).
Proof.
  unfold create_draft, create_draft_result, bind, gets.
  destruct (truthy (access_token w)); [|reflexivity].
  simpl. unfold try_except, bind, post, lift, ret.
  destruct (requests_post E (posted w) _) as [response|e]; [|reflexivity].
  destruct (status_code response =? 201); [|reflexivity].
  destruct (json response) as [result|e]; [|reflexivity].
  destruct (get_method result _ _); reflexivity.
Qed.

Lemma log_result_run (csv_file : list N) (email company first_name : pyval)
    (subject : list N) (draft_id status : pyval) (w : world) :
  log_result csv_file email company first_name subject draft_id status w =
  (Returned tt,
   row_logged csv_file
     (CsvRow [email; company; first_name; VStr subject; draft_id; status]) w).
Proof.
  unfold log_result, row_logged, with_row, with_rows, writerow, bind, path_exists, gets,
    set_file, modify, file_set, ret. simpl.
  destruct (files w !! csv_file) as [rows|] eqn:Hrows; simpl.
  - rewrite !lookup_insert_eq. simpl. rewrite !insert_insert_eq. reflexivity.
  - rewrite !lookup_insert_eq. simpl. rewrite !insert_insert_eq. reflexivity.
Qed.

Lemma bind_returned {A B} (m : M A) (k : A -> M B) (w w' : world) (a : A) :
  m w = (Returned a, w') -> bind m k w = k a w'.
Proof. unfold bind. intros ->. reflexivity. Qed.

Lemma bind_print {B} (l : console_line) (k : unit -> M B) (w : world) :
  bind (print l) k w = k tt (printed l w).
Proof. reflexivity. Qed.

Lemma chatter_refl (w : world) : chatter w w.
Proof. repeat split. Qed.

Lemma chatter_trans (w1 w2 w3 : world) :
  chatter w1 w2 -> chatter w2 w3 -> chatter w1 w3.
Proof.
  unfold chatter. intros (A1 & A2 & A3 & A4 & A5 & A6) (B1 & B2 & B3 & B4 & B5 & B6).
  repeat split; congruence.
Qed.

Lemma chatter_printed (l : console_line) (w : world) :
  is_skip l = false -> chatter w (printed l w).
Proof.
  intros Hl. unfold chatter, skip_notices, draft_submissions, printed.
  cbn [access_token console posted files msal_calls slept].
  repeat split.
  rewrite filter_app, filter_cons_False by (rewrite Hl; discriminate).
  rewrite filter_nil. apply app_nil_r.
Qed.

Lemma chatter_requested (r : http_request) (w : world) :
  req_url r <> messages_url -> chatter w (requested r w).
Proof.
  intros Hr. unfold chatter, skip_notices, draft_submissions, requested.
  cbn [access_token console posted files msal_calls slept].
  repeat split.
  rewrite filter_app, filter_cons_False by exact Hr.
  rewrite filter_nil. apply app_nil_r.
Qed.

Lemma completions_url_other : completions_url <> messages_url.
Proof. intros H. vm_compute in H. discriminate. Qed.

Lemma render_template_returns (template_text : list N)
    (row_data : gmap (list N) pyval) (w : world) :
  exists s w', render_template E template_text row_data w = (Returned s, w')
               /\ chatter w w'.
Proof.
  rewrite render_template_run.
  destruct (jinja2_render E template_text row_data) as [s|e].
  - exists s, w. split; [reflexivity|apply chatter_refl].
  - exists template_text, (printed (SayRenderError e) w).
    split; [reflexivity|]. apply chatter_printed. reflexivity.
Qed.

Lemma personalize_result_returns (key : list N) (row_data : gmap (list N) pyval)
    (w : world) :
  exists s w', personalize_result E key row_data w = (Returned s, w')
               /\ chatter w w'.
Proof.
  unfold personalize_result.
  set (r := completion_request key (prompt_of E row_data)).
  assert (Hr : chatter w (requested r w)).
  { apply chatter_requested. exact completions_url_other. }
  assert (Hp : forall e, chatter w (printed (SayAIFailed e) (requested r w))).
  { intros e. eapply chatter_trans; [exact Hr|]. apply chatter_printed. reflexivity. }
  destruct (requests_post E (posted w) r) as [response|e]; [|eauto].
  destruct (status_code response =? 200); [|eauto].
  destruct (json response) as [result|e]; [|eauto].
  destruct (completion_of result); eauto.
Qed.

Lemma personalize_with_ai_returns (row_data : gmap (list N) pyval) (w : world) :
  exists s w', personalize_with_ai E row_data w = (Returned s, w')
               /\ chatter w w'.
Proof.
  rewrite personalize_with_ai_run.
  destruct (getenv E (lit "OPENAI_API_KEY")) as [[|c key]|].
  - exists [], w. split; [reflexivity|apply chatter_refl].
  - apply personalize_result_returns.
  - exists [], w. split; [reflexivity|apply chatter_refl].
Qed.

Lemma create_draft_result_cases (response : outcome http_response) :
  (exists draft_id, create_draft_result E response = success_result draft_id)
  \/ (exists detail, create_draft_result E response = failure_result detail).
Proof.
  unfold create_draft_result.
  destruct response as [response|e]; [|eauto].
  destruct (status_code response =? 201); [|eauto].
  destruct (json response) as [result|e]; [|eauto].
  destruct (get_method result _ _); eauto.
Qed.

Lemma create_draft_returns (email : pyval) (subject body : list N) (w : world) :
  exists result,
    (create_draft E email subject body w).1 = Returned result
    /\ ((exists draft_id, result = success_result draft_id)
        \/ (exists detail, result = failure_result detail)).
Proof.
  rewrite create_draft_run.
  destruct (truthy (access_token w)); simpl.
  - eexists. split; [reflexivity|]. apply create_draft_result_cases.
  - eexists. split; [reflexivity|]. right. eauto.
Qed.

End Runs.

(** ** The pause *)

Lemma FLOAT_LIMIT_above : SLEEP_MAX_MS < FLOAT_LIMIT.
Proof. reflexivity. Qed.

Lemma SLEEP_MAX_MS_positive : 0 <= SLEEP_MAX_MS.
Proof. discriminate. Qed.

(** The pause by cases on whether [time.sleep] accepts the delay. *)
Lemma pace_closed (args : arguments) (len_df : nat) (index : Z) (w : world) :
  pace args len_df index w =
  if index <? Z.of_nat len_df - 1 then
    if sleep_accepts (delay_ms args) then
      (Returned tt, paused (delay_ms args) (printed (SayWaiting (delay_ms args)) w))
    else
      (Raised (pause_error (delay_ms args)),
       if FLOAT_LIMIT <=? Z.abs (delay_ms args) then w
       else printed (SayWaiting (delay_ms args)) w)
  else (Returned tt, w).
Proof.
  pose proof FLOAT_LIMIT_above as Hlimit.
  pose proof SLEEP_MAX_MS_positive as Hmax.
  unfold pace, sleep_accepts, pause_error.
  destruct (index <? Z.of_nat len_df - 1); [|reflexivity].
  destruct (FLOAT_LIMIT <=? Z.abs (delay_ms args)) eqn:Hfloat;
    destruct (SLEEP_MAX_MS <? Z.abs (delay_ms args)) eqn:Hsleep;
    destruct (delay_ms args <? 0) eqn:Hneg;
    destruct (0 <=? delay_ms args) eqn:Hpos;
    destruct (delay_ms args <=? SLEEP_MAX_MS) eqn:Hle;
    try reflexivity; exfalso;
    rewrite ?Z.leb_le, ?Z.leb_gt, ?Z.ltb_lt, ?Z.ltb_ge in *; lia.
Qed.

Lemma pace_keeps (args : arguments) (len_df : nat) (index : Z) (w : world) :
  access_token (pace args len_df index w).2 = access_token w
  /\ msal_calls (pace args len_df index w).2 = msal_calls w
  /\ posted (pace args len_df index w).2 = posted w
  /\ files (pace args len_df index w).2 = files w
  /\ skip_notices (pace args len_df index w).2 = skip_notices w.
Proof.
  assert (Hskip : skip_notices (printed (SayWaiting (delay_ms args)) w)
                  = skip_notices w).
  { unfold skip_notices, printed. cbn [console].
    rewrite filter_app, filter_cons_False by (cbn [is_skip]; discriminate).
    rewrite filter_nil. apply app_nil_r. }
  unfold pace.
  destruct (index <? Z.of_nat len_df - 1);
    [destruct (FLOAT_LIMIT <=? Z.abs (delay_ms args));
     [|destruct (SLEEP_MAX_MS <? Z.abs (delay_ms args));
       [|destruct (delay_ms args <? 0)]]|];
    cbn [snd]; repeat split; exact Hskip.
Qed.

Lemma pace_slept (args : arguments) (len_df : nat) (index : Z) (w : world) :
  ((pace args len_df index w).1, slept (pace args len_df index w).2) =
  if index <? Z.of_nat len_df - 1 then
    if sleep_accepts (delay_ms args) then (Returned tt, slept w ++ [delay_ms args])
    else (Raised (pause_error (delay_ms args)), slept w)
  else (Returned tt, slept w).
Proof.
  rewrite pace_closed.
  destruct (index <? Z.of_nat len_df - 1); [|reflexivity].
  destruct (sleep_accepts (delay_ms args)); [reflexivity|].
  destruct (FLOAT_LIMIT <=? Z.abs (delay_ms args)); reflexivity.
Qed.

(** ** One turn of the loop *)

Section Steps.

Context (E : environment).

Lemma process_contact_run (args : arguments) (len_df : nat) (index : Z)
    (row : gmap (list N) pyval) (w : world) :
  let row_data := clean row in
  let email := get row_data (lit "email") (VStr []) in
  exists subject body w1,
    chatter w w1 /\
    if truthy email then
      exists result status line,
        (create_draft E email subject body (printed (SayCreating email) w1)).1
          = Returned result
        /\ result !! lit "status" = Some (VStr status)
        /\ (status = lit "success" \/ status = lit "error")
        /\ (status = lit "error" -> get result (lit "draft_id") (VStr []) = VStr [])
        /\ is_skip line = false
        /\ process_contact E args len_df index row w =
           pace args len_df index
             (printed line
                (row_logged (log_csv args)
                   (audit_row email
                      (get row_data (lit "company") (VStr []))
                      (get row_data (lit "first_name") (VStr []))
                      subject
                      (get result (lit "draft_id") (VStr []))
                      status)
                   (create_draft E email subject body
                      (printed (SayCreating email) w1)).2))
    else
      process_contact E args len_df index row w =
      (Returned tt, printed (SaySkip (index + 1)) w1).
Proof.
  intros row_data email. unfold process_contact. fold row_data. fold email.
  destruct (render_template_returns E SUBJECT_TEXT row_data w)
    as (subject & wa & Ha & Ca).
  rewrite (bind_returned _ _ _ _ _ Ha).
  destruct (render_template_returns E BODY_TEXT row_data wa)
    as (body0 & wb & Hb & Cb).
  rewrite (bind_returned _ _ _ _ _ Hb).
  assert (Hprep : exists body w1,
    (if ai_personalize args
     then let* personalization := personalize_with_ai E row_data
          in ret (if truthy (VStr personalization)
                  then body0 ++ personalization else body0)
     else ret body0) wb = (Returned body, w1) /\ chatter wb w1).
  { destruct (ai_personalize args).
    - destruct (personalize_with_ai_returns E row_data wb) as (p & wc & Hc & Cc).
      rewrite (bind_returned _ _ _ _ _ Hc). eexists _, wc. split; [reflexivity|exact Cc].
    - exists body0, wb. split; [reflexivity|apply chatter_refl]. }
  destruct Hprep as (body & w1 & Hc & Cc).
  rewrite (bind_returned _ _ _ _ _ Hc).
  exists subject, body, w1.
  split; [eapply chatter_trans; [exact Ca|eapply chatter_trans; [exact Cb|exact Cc]]|].
  destruct (truthy email) eqn:Hemail; cbn [negb]; [|reflexivity].
  destruct (create_draft_returns E email subject body (printed (SayCreating email) w1))
    as (result & Hres & Hcases).
  destruct (create_draft E email subject body (printed (SayCreating email) w1))
    as [o w2] eqn:Hcd.
  simpl in Hres. subst o.
  rewrite bind_print.
  rewrite (bind_returned _ _ _ _ _ Hcd).
  destruct Hcases as [[draft_id ->]|[detail ->]].
  - exists (success_result draft_id), (lit "success"), (SayDraftOk draft_id).
    split; [reflexivity|]. split; [reflexivity|]. split; [left; reflexivity|].
    split; [intros H; vm_compute in H; discriminate|].
    split; [reflexivity|].
    unfold bind, lift. simpl subscript.
    rewrite success_result_status, log_result_run.
    change (eq_str (VStr (lit "success")) (lit "success")) with true.
    cbv iota beta.
    change (subscript (VDict (success_result draft_id)) (VStr (lit "draft_id")))
      with (Returned draft_id).
    unfold pace, to_seconds, sleep_ms, bind, print, modify, raise, ret.
    destruct (index <? Z.of_nat len_df - 1);
      [destruct (FLOAT_LIMIT <=? Z.abs (delay_ms args));
       [|destruct (SLEEP_MAX_MS <? Z.abs (delay_ms args));
         [|destruct (delay_ms args <? 0)]]|];
      reflexivity.
  - exists (failure_result detail), (lit "error"), (SayDraftFailed (VStr detail)).
    split; [reflexivity|]. split; [reflexivity|]. split; [right; reflexivity|].
    split; [reflexivity|].
    split; [reflexivity|].
    unfold bind, lift. simpl subscript.
    rewrite failure_result_status, log_result_run.
    change (eq_str (VStr (lit "error")) (lit "success")) with false.
    cbv iota beta.
    unfold pace, to_seconds, sleep_ms, bind, print, modify, raise, ret.
    destruct (index <? Z.of_nat len_df - 1);
      [destruct (FLOAT_LIMIT <=? Z.abs (delay_ms args));
       [|destruct (SLEEP_MAX_MS <? Z.abs (delay_ms args));
         [|destruct (delay_ms args <? 0)]]|];
      reflexivity.
Qed.

Lemma create_draft_frame (email : pyval) (subject body : list N) (w : world) :
  let w' := (create_draft E email subject body w).2 in
  access_token w' = access_token w /\ files w' = files w
  /\ console w' = console w /\ slept w' = slept w
  /\ msal_calls w' = msal_calls w.
Proof.
  rewrite create_draft_run.
  destruct (truthy (access_token w)); simpl; repeat split.
Qed.

Lemma skip_notices_printed (l : console_line) (w : world) :
  skip_notices (printed l w) = skip_notices w ++ (if is_skip l then [l] else []).
Proof.
  unfold skip_notices, printed. cbn [console].
  rewrite filter_app. f_equal.
  destruct (is_skip l) eqn:Hl.
  - rewrite filter_cons_True by exact Hl. reflexivity.
  - rewrite filter_cons_False by (rewrite Hl; discriminate). reflexivity.
Qed.

(** What one turn leaves behind, field by field. *)
Lemma process_contact_effects (args : arguments) (len_df : nat) (index : Z)
    (row : gmap (list N) pyval) (w : world) :
  exists out w',
    process_contact E args len_df index row w = (out, w') /\
    if truthy (email_of row) then
      (exists subject draft_id status,
         files w' =
           with_row (files w) (log_csv args)
             (audit_row (email_of row)
                (get (clean row) (lit "company") (VStr []))
                (get (clean row) (lit "first_name") (VStr []))
                subject draft_id status)
         /\ (status = lit "success" \/ status = lit "error")
         /\ (status = lit "error" -> draft_id = VStr []))
      /\ skip_notices w' = skip_notices w
      /\ (out, slept w') =
         if index <? Z.of_nat len_df - 1 then
           if sleep_accepts (delay_ms args) then
             (Returned tt, slept w ++ [delay_ms args])
           else (Raised (pause_error (delay_ms args)), slept w)
         else (Returned tt, slept w)
    else
      out = Returned tt /\ files w' = files w
      /\ skip_notices w' = skip_notices w ++ [SaySkip (index + 1)]
      /\ slept w' = slept w
      /\ draft_submissions w' = draft_submissions w.
Proof.
  destruct (process_contact_run args len_df index row w)
    as (subject & body & w1 & Hc & Hrun).
  fold (email_of row) in Hrun.
  destruct Hc as (Htok & Hfiles & Hmsal & Hslept & Hskip & Hdrafts).
  destruct (truthy (email_of row)).
  - destruct Hrun as (result & status & line & Hres & Hstatus & Hcases & Hid & Hline & ->).
    destruct (create_draft_frame (email_of row) subject body
                (printed (SayCreating (email_of row)) w1))
      as (_ & Hf2 & Hc2 & Hs2 & _).
    set (w2 := (create_draft E (email_of row) subject body
                  (printed (SayCreating (email_of row)) w1)).2) in *.
    eexists _, _. split; [apply surjective_pairing|].
    split; [|split].
    + exists subject, (get result (lit "draft_id") (VStr [])), status.
      split; [|split; assumption].
      destruct (pace_keeps args len_df index
                  (printed line (row_logged (log_csv args)
                     (audit_row (email_of row)
                        (get (clean row) (lit "company") (VStr []))
                        (get (clean row) (lit "first_name") (VStr []))
                        subject (get result (lit "draft_id") (VStr [])) status) w2)))
        as (_ & _ & _ & Hpf & _).
      rewrite Hpf. cbn [files printed row_logged]. rewrite Hf2. cbn [files printed].
      rewrite Hfiles. reflexivity.
    + destruct (pace_keeps args len_df index
                  (printed line (row_logged (log_csv args)
                     (audit_row (email_of row)
                        (get (clean row) (lit "company") (VStr []))
                        (get (clean row) (lit "first_name") (VStr []))
                        subject (get result (lit "draft_id") (VStr [])) status) w2)))
        as (_ & _ & _ & _ & Hps).
      rewrite Hps.
      rewrite skip_notices_printed, Hline, app_nil_r.
      unfold skip_notices, row_logged. cbn [console]. rewrite Hc2.
      change (skip_notices (printed (SayCreating (email_of row)) w1) = skip_notices w).
      rewrite skip_notices_printed. cbn [is_skip]. rewrite app_nil_r. exact Hskip.
    + rewrite pace_slept.
      cbn [slept printed row_logged]. rewrite Hs2. cbn [slept printed].
      rewrite Hslept. reflexivity.
  - rewrite Hrun. eexists _, _. split; [reflexivity|].
    split; [reflexivity|]. split; [exact Hfiles|].
    split; [rewrite skip_notices_printed, Hskip; reflexivity|].
    split; [exact Hslept|exact Hdrafts].
Qed.




End Steps.

(** ** The fixtures, run *)

(** A template the engine rejects comes back as it was, after one line on
    the console. *)
Example render_template_rejected :
  render_template
    (failing_renderer (fixture_environment (Returned created_response) None VNone))
    SUBJECT_TEXT ada fresh_world =
  (Returned SUBJECT_TEXT,
   printed (SayRenderError (LibraryError (lit "TemplateSyntaxError")
                              (lit "unexpected end of template")))
     fresh_world).
Proof. reflexivity. Qed.

(** A 200 answer without [choices] is reported and gives no sentence. *)
Example personalize_malformed :
  let E := fixture_environment (Returned malformed_completion)
             (Some (lit "sk-test")) VNone in
  (personalize_with_ai E ada signed_in_world).1 = Returned []
  /\ console (personalize_with_ai E ada signed_in_world).2 =
     [SayAIFailed (KeyError (VStr (lit "choices")))].
Proof. vm_compute. split; reflexivity. Qed.

(** A throttled mail API: both contacts with an address get an ["error"]
    row with an empty draft id, and the batch runs to its end. *)
Example throttled_batch :
  let E := fixture_environment (Returned throttled_response) None VNone in
  let run := process_contacts E (fixture_arguments 0 false) 3 0
               [ada; nobody; grace] signed_in_world in
  run.1 = Returned tt
  /\ files run.2 !! lit "log.csv" =
     Some [header_row;
           audit_row (VStr (lit "ada@example.com")) (VStr (lit "Analytical Engines"))
             (VStr (lit "Ada")) SUBJECT_TEXT (VStr []) (lit "error");
           audit_row (VStr (lit "grace@example.com")) (VStr (lit "Navy"))
             (VStr (lit "Grace")) SUBJECT_TEXT (VStr []) (lit "error")].
Proof. vm_compute. split; reflexivity. Qed.

(** A completion of 300 characters is cut to 197 and three dots. *)
Example shorten_long :
  length (shorten (replicate 300 97%N)) = 200%nat
  /\ shorten (replicate 300 97%N) = replicate 197 97%N ++ lit "...".
Proof. vm_compute. split; reflexivity. Qed.

(** A delay of 10^13 ms is more than [time.sleep] can take: the batch
    stops with [OverflowError] after the first contact's row, the waiting
    line already printed. *)
Example overlong_delay :
  let run := process_contacts
               (fixture_environment (Returned created_response) None VNone)
               (fixture_arguments 10000000000000 false) 3 0
               [ada; nobody; grace] signed_in_world in
  run.1 = Raised OverflowError
  /\ (length <$> files run.2 !! lit "log.csv") = Some 2%nat
  /\ last (console run.2) = Some (SayWaiting 10000000000000)
  /\ slept run.2 = [].
Proof. vm_compute. repeat split. Qed.

(** * The claims of the specification *)

(** C1: a turn of the loop on a contact whose [email] is non-empty once the
    missing values are blanked appends exactly one audit row to the log
    (after the header, when the log is new), and its status is ["success"]
    or ["error"]; on a contact whose [email] is empty it leaves every file
    as it was and posts no draft. *)
Theorem one_audit_row_per_contact (E : environment) (args : arguments)
    (len_df : nat) (index : Z) (row : gmap (list N) pyval) (w : world) :
  let w' := (process_contact E args len_df index row w).2 in
  if truthy (email_of row) then
    exists subject draft_id status,
      files w' =
        with_row (files w) (log_csv args)
          (audit_row (email_of row)
             (get (clean row) (lit "company") (VStr []))
             (get (clean row) (lit "first_name") (VStr []))
             subject draft_id status)
      /\ (status = lit "success" \/ status = lit "error")
  else
    files w' = files w /\ draft_submissions w' = draft_submissions w.
Proof.
  intros w'. subst w'.
  destruct (process_contact_effects E args len_df index row w)
    as (out & w' & -> & H).
  cbn [snd].
  destruct (truthy (email_of row)).
  - destruct H as ((subject & draft_id & status & Hf & Hs & _) & _).
    exists subject, draft_id, status. split; assumption.
  - destruct H as (_ & Hf & _ & _ & Hd). split; assumption.
Qed.

(** C5: [render_template] returns whatever happens in the template engine:
    the rendered text when it succeeds, and when it raises, the template
    text itself, unchanged, after printing the error. *)
Theorem render_template_never_raises (E : environment) (template_text : list N)
    (row_data : gmap (list N) pyval) (w : world) :
  (exists s, (render_template E template_text row_data w).1 = Returned s)
  /\ match jinja2_render E template_text row_data with
     | Returned s => render_template E template_text row_data w = (Returned s, w)
     | Raised e =>
         render_template E template_text row_data w =
         (Returned template_text, printed (SayRenderError e) w)
     end.
Proof.
  rewrite render_template_run.
  destruct (jinja2_render E template_text row_data) as [s|e]; split; eauto.
Qed.

(** C6: without a token ([None] or the empty string) [create_draft] returns
    the failure dict at once and leaves the world, and so the list of
    requests made, as it was. *)
Theorem create_draft_without_token (E : environment) (email : pyval)
    (subject body : list N) (w : world) :
  truthy (access_token w) = false ->
  create_draft E email subject body w =
  (Returned (failure_result (lit "No access token")), w).
Proof.
  intros H. rewrite create_draft_run, H. reflexivity.
Qed.

Lemma create_draft_without_token_witness :
  truthy (access_token fresh_world) = false
  /\ create_draft (fixture_environment (Returned created_response) None VNone)
       (VStr (lit "ada@example.com")) SUBJECT_TEXT BODY_TEXT fresh_world =
     (Returned (failure_result (lit "No access token")), fresh_world).
Proof.
  split; [reflexivity|].
  apply (create_draft_without_token
           (fixture_environment (Returned created_response) None VNone)).
  reflexivity.
Defined.

(** C7: when [OPENAI_API_KEY] is unset or empty, [personalize_with_ai]
    returns the empty string and leaves the world, and so the list of
    requests made, as it was. *)
Theorem personalize_without_key (E : environment)
    (row_data : gmap (list N) pyval) (w : world) :
  getenv E (lit "OPENAI_API_KEY") = None
  \/ getenv E (lit "OPENAI_API_KEY") = Some [] ->
  personalize_with_ai E row_data w = (Returned [], w).
Proof.
  intros [H|H]; rewrite personalize_with_ai_run, H; reflexivity.
Qed.

Lemma personalize_without_key_witness :
  personalize_with_ai
    (fixture_environment (Returned (completion_response (lit "Hello."))) None VNone)
    ada signed_in_world =
  (Returned [], signed_in_world).
Proof.
  apply (personalize_without_key
           (fixture_environment (Returned (completion_response (lit "Hello."))) None VNone)).
  left. reflexivity.
Defined.

(** C3, as the specification states it, fails: a 201 answer does not
    always give a success.  When the body decodes to a JSON list, or does
    not decode at all, [create_draft] returns the failure dict carrying the
    description of the exception raised on the way. *)
Lemma created_without_object_fails :
  (status_code created_with_list = 201
   /\ (create_draft (fixture_environment (Returned created_with_list) None VNone)
         (VStr (lit "ada@example.com")) SUBJECT_TEXT BODY_TEXT signed_in_world).1
      = Returned (failure_result (lit "error")))
  /\ (status_code created_undecodable = 201
      /\ (create_draft (fixture_environment (Returned created_undecodable) None VNone)
            (VStr (lit "ada@example.com")) SUBJECT_TEXT BODY_TEXT signed_in_world).1
         = Returned (failure_result (lit "Expecting value"))).
Proof. repeat split. Qed.

(** C3, amended: with a token in hand, [create_draft] posts one request and
    always returns a dict, never an exception.  For a 201 answer whose body
    decodes to a JSON object it is the success dict carrying the object's
    [id] (["unknown"] when the object has none); for a 201 answer whose
    body does not decode, or decodes to something that is not an object,
    the failure dict carrying the description of the exception; for any
    other status code, the failure dict whose detail is ["HTTP "], the
    status code, [": "] and the response text; when the request raises,
    the failure dict whose detail is the description of the exception. *)
Theorem create_draft_outcomes (E : environment) (email : pyval)
    (subject body : list N) (w : world) (answer : outcome http_response) :
  truthy (access_token w) = true ->
  requests_post E (posted w)
    (draft_request E (access_token w) email subject body) = answer ->
  exists result,
    create_draft E email subject body w =
      (Returned result,
       requested (draft_request E (access_token w) email subject body) w)
    /\ match answer with
       | Raised e => result = failure_result (str_exn E e)
       | Returned response =>
           if status_code response =? 201 then
             match json response with
             | Returned (VDict d) =>
                 result = success_result (get d (lit "id") (VStr (lit "unknown")))
             | Returned other =>
                 result = failure_result (str_exn E (AttributeError other (lit "get")))
             | Raised e => result = failure_result (str_exn E e)
             end
           else
             result =
               failure_result
                 (lit "HTTP " ++ format_value E (VInt (status_code response))
                  ++ lit ": " ++ text response)
       end.
Proof.
  intros Htok <-. rewrite create_draft_run, Htok. cbv zeta.
  eexists. split; [reflexivity|].
  unfold create_draft_result.
  destruct (requests_post E (posted w) _) as [response|e]; [|reflexivity].
  destruct (status_code response =? 201); [|reflexivity].
  destruct (json response) as [[]|e]; reflexivity.
Qed.

Lemma create_draft_outcomes_witness :
  create_draft (fixture_environment (Returned created_response) None VNone)
    (VStr (lit "ada@example.com")) SUBJECT_TEXT BODY_TEXT signed_in_world =
  (Returned (success_result (VStr (lit "AAMk-example"))),
   requested
     (draft_request (fixture_environment (Returned created_response) None VNone)
        (access_token signed_in_world) (VStr (lit "ada@example.com"))
        SUBJECT_TEXT BODY_TEXT)
     signed_in_world).
Proof.
  destruct (create_draft_outcomes
              (fixture_environment (Returned created_response) None VNone)
              (VStr (lit "ada@example.com")) SUBJECT_TEXT BODY_TEXT signed_in_world
              (Returned created_response) eq_refl eq_refl)
    as (result & Hrun & Hresult).
  rewrite Hrun. f_equal. f_equal. exact Hresult.
Defined.

(** C10: a 201 answer whose JSON object has no [id] still gives the success
    dict, with the draft id ["unknown"]; and in a turn of the loop on a
    contact with an address, the row appended to the log carries
    [result.get('draft_id', '')] and [result['status']] of the dict
    [create_draft] returned, so that an ["error"] row has an empty
    draft id. *)
Theorem unknown_id_and_empty_draft_id :
  (forall (E : environment) (email : pyval) (subject body : list N) (w : world)
          (response : http_response) (d : gmap (list N) pyval),
      truthy (access_token w) = true ->
      requests_post E (posted w)
        (draft_request E (access_token w) email subject body) = Returned response ->
      status_code response = 201 ->
      json response = Returned (VDict d) ->
      d !! lit "id" = None ->
      (create_draft E email subject body w).1 =
      Returned (success_result (VStr (lit "unknown"))))
  /\ (forall (E : environment) (email : pyval) (subject body : list N) (w : world)
             (result : gmap (list N) pyval),
         (create_draft E email subject body w).1 = Returned result ->
         result !! lit "status" = Some (VStr (lit "error")) ->
         result !! lit "draft_id" = None)
  /\ (forall (E : environment) (args : arguments) (len_df : nat) (index : Z)
             (row : gmap (list N) pyval) (w : world),
         truthy (email_of row) = true ->
         exists subject body w1 result status,
           (create_draft E (email_of row) subject body w1).1 = Returned result
           /\ result !! lit "status" = Some (VStr status)
           /\ files (process_contact E args len_df index row w).2 =
              with_row (files w) (log_csv args)
                (audit_row (email_of row)
                   (get (clean row) (lit "company") (VStr []))
                   (get (clean row) (lit "first_name") (VStr []))
                   subject
                   (get result (lit "draft_id") (VStr []))
                   status)
           /\ (status = lit "error" ->
               get result (lit "draft_id") (VStr []) = VStr [])).
Proof.
  split; [|split].
  - intros E email subject body w response d Htok Hpost Hcode Hjson Hid.
    rewrite create_draft_run, Htok. cbv zeta. cbn [fst].
    rewrite Hpost. unfold create_draft_result.
    rewrite Hcode, Hjson. cbn [Z.eqb Pos.eqb]. unfold get_method, get.
    rewrite Hid. reflexivity.
  - intros E email subject body w result Hrun Hstatus.
    destruct (create_draft_returns E email subject body w)
      as (result' & Hrun' & [[draft_id ->]|[detail ->]]);
      rewrite Hrun in Hrun'; injection Hrun' as ->.
    + rewrite success_result_status in Hstatus. vm_compute in Hstatus. discriminate.
    + reflexivity.
  - intros E args len_df index row w Hemail.
    destruct (process_contact_run E args len_df index row w)
      as (subject & body & w1 & Hc & Hrun).
    fold (email_of row) in Hrun. rewrite Hemail in Hrun.
    destruct Hrun as (result & status & line & Hres & Hstatus & _ & Hid & _ & ->).
    exists subject, body, (printed (SayCreating (email_of row)) w1), result, status.
    split; [exact Hres|]. split; [exact Hstatus|]. split; [|exact Hid].
    destruct (create_draft_frame E (email_of row) subject body
                (printed (SayCreating (email_of row)) w1))
      as (_ & Hf2 & _).
    destruct Hc as (_ & Hfiles & _).
    unfold pace.
    destruct (index <? Z.of_nat len_df - 1);
      [destruct (FLOAT_LIMIT <=? Z.abs (delay_ms args));
       [|destruct (SLEEP_MAX_MS <? Z.abs (delay_ms args));
         [|destruct (delay_ms args <? 0)]]|];
      cbn [snd files paused printed row_logged]; rewrite Hf2; cbn [files printed];
      rewrite Hfiles; reflexivity.
Qed.

Lemma unknown_id_and_empty_draft_id_witness :
  (create_draft (fixture_environment (Returned created_without_id) None VNone)
     (VStr (lit "ada@example.com")) SUBJECT_TEXT BODY_TEXT signed_in_world).1 =
  Returned (success_result (VStr (lit "unknown"))).
Proof.
  exact (proj1 unknown_id_and_empty_draft_id
           (fixture_environment (Returned created_without_id) None VNone)
           (VStr (lit "ada@example.com")) SUBJECT_TEXT BODY_TEXT signed_in_world
           created_without_id
           (make_dict [(lit "subject", VStr (lit "hello"))])
           eq_refl eq_refl eq_refl eq_refl eq_refl).
Defined.

(** C9: when the first cached account yields a dict with an [access_token]
    through silent acquisition, [authenticate] returns [True], holds that
    token, has written the serialized cache to the cache file, and the only
    calls made on the MSAL application are [get_accounts],
    [acquire_token_silent] and [serialize]: the device flow is not
    initiated, and nothing is printed. *)
Theorem authenticate_from_cache (E : environment) (w : world)
    (account : pyval) (others : list pyval) (d : gmap (list N) pyval) (tok : pyval) :
  msal_get_accounts E = Returned (account :: others) ->
  msal_acquire_token_silent E account = Returned (VDict d) ->
  d !! lit "access_token" = Some tok ->
  let calls := msal_calls w ++ [GetAccounts; AcquireTokenSilent SCOPES account] in
  authenticate E w =
  (Returned true,
   World tok (console w) (posted w)
         (<[TOKEN_CACHE_FILE := [Text (msal_serialize E calls)]]> (files w))
         (calls ++ [Serialize]) (slept w)).
Proof.
  intros Haccounts Hsilent Htok calls. subst calls.
  unfold authenticate, bind, msal, modify, lift. cbn [msal_called msal_calls].
  rewrite Haccounts. cbn [msal_called msal_calls].
  rewrite Hsilent.
  rewrite (truthy_nonempty_dict d _ _ Htok).
  cbn [subscript]. rewrite Htok.
  unfold set_access_token, _save_token_cache, bind, gets, msal, set_file, modify, ret.
  unfold token_set, msal_called, file_set.
  cbn [access_token console posted files msal_calls slept].
  rewrite <- app_assoc. reflexivity.
Qed.

Lemma authenticate_from_cache_witness :
  (authenticate
     (fixture_environment (Returned created_response) None
        (VDict (make_dict [(lit "access_token", VStr (lit "eyJ0-token"))])))
     fresh_world).1 = Returned true.
Proof.
  rewrite (authenticate_from_cache
             (fixture_environment (Returned created_response) None
                (VDict (make_dict [(lit "access_token", VStr (lit "eyJ0-token"))])))
             fresh_world
             (VDict (make_dict [(lit "username", VStr (lit "user@example.com"))]))
             []
             (make_dict [(lit "access_token", VStr (lit "eyJ0-token"))])
             (VStr (lit "eyJ0-token"))
             eq_refl eq_refl eq_refl).
  reflexivity.
Defined.

(** C8: on a 200 answer whose body holds a completion string, with a key
    configured, [personalize_with_ai] returns two newlines followed by the
    stripped completion, cut to 197 characters plus ["..."] when the
    stripped completion is longer than 200 characters; what follows the two
    newlines is at most 200 characters long and does not start with white
    space, and the stripped completion is the completion without leading
    and trailing white space. *)
Theorem personalize_success (E : environment) (row_data : gmap (list N) pyval)
    (w : world) (key : list N) (response : http_response) (result : pyval)
    (content : list N) :
  getenv E (lit "OPENAI_API_KEY") = Some key ->
  truthy (VStr key) = true ->
  requests_post E (posted w) (completion_request key (prompt_of E row_data))
    = Returned response ->
  status_code response = 200 ->
  json response = Returned result ->
  completion_content result = Returned (VStr content) ->
  exists shown,
    personalize_with_ai E row_data w =
      (Returned (nl ++ nl ++ shown),
       requested (completion_request key (prompt_of E row_data)) w)
    /\ (length shown <= 200)%nat
    /\ ((length (strip content) <= 200)%nat -> shown = strip content)
    /\ ((200 < length (strip content))%nat ->
        shown = take 197 (strip content) ++ lit "...")
    /\ (forall c rest, shown = c :: rest -> is_space c = false)
    /\ (exists before after,
          content = before ++ strip content ++ after
          /\ forallb is_space before = true /\ forallb is_space after = true).
Proof.
  intros Hkey Htruthy Hpost Hcode Hjson Hcontent.
  exists (shorten (strip content)).
  split; [|split; [|split; [|split; [|split]]]].
  - rewrite personalize_with_ai_run, Hkey.
    destruct key as [|c key]; [discriminate|].
    unfold personalize_result. rewrite Hpost, Hcode, Hjson.
    unfold completion_of. rewrite Hcontent. reflexivity.
  - apply shorten_length.
  - intros H. unfold shorten.
    destruct (200 <? length (strip content))%nat eqn:Hlt; [|reflexivity].
    apply Nat.ltb_lt in Hlt. lia.
  - intros H. unfold shorten.
    destruct (200 <? length (strip content))%nat eqn:Hlt; [reflexivity|].
    apply Nat.ltb_ge in Hlt. lia.
  - intros c rest H. apply shorten_head in H as [rest' H].
    exact (strip_head _ _ _ H).
  - apply strip_split.
Qed.

Lemma personalize_success_witness :
  (personalize_with_ai
     (fixture_environment
        (Returned (completion_response (lit "  Loved your talk on engines. ")))
        (Some (lit "sk-test")) VNone)
     ada signed_in_world).1 =
  Returned (nl ++ nl ++ lit "Loved your talk on engines.").
Proof.
  destruct (personalize_success
              (fixture_environment
                 (Returned (completion_response (lit "  Loved your talk on engines. ")))
                 (Some (lit "sk-test")) VNone)
              ada signed_in_world (lit "sk-test")
              (completion_response (lit "  Loved your talk on engines. "))
              (VDict (make_dict
                 [(lit "choices",
                   VList [VDict (make_dict
                     [(lit "message",
                       VDict (make_dict
                         [(lit "role", VStr (lit "assistant"));
                          (lit "content", VStr (lit "  Loved your talk on engines. "))]))])])]))
              (lit "  Loved your talk on engines. ")
              eq_refl eq_refl eq_refl eq_refl eq_refl eq_refl)
    as (shown & Hrun & _ & Hshort & _).
  rewrite Hrun. cbn [fst].
  rewrite Hshort by (vm_compute; lia).
  reflexivity.
Defined.

(** C4: the code at the failing input.  With a key configured and a 500
    answer, [personalize_with_ai] posts its request and returns the empty
    string, but nothing is printed: the error is not logged. *)
Lemma personalize_http_error_not_logged :
  let E := fixture_environment (Returned server_error_response)
             (Some (lit "sk-test")) VNone in
  (personalize_with_ai E ada signed_in_world).1 = Returned []
  /\ length (posted (personalize_with_ai E ada signed_in_world).2) = 1%nat
  /\ console (personalize_with_ai E ada signed_in_world).2 = [].
Proof. vm_compute. repeat split. Qed.

(** What [personalize_with_ai] does by kind of failure.  With a key
    configured it never raises; when the request raises (a timeout, a transport error), when [.json()]
    raises on a 200 answer, or when the decoded body of a 200 answer has no
    completion string, it prints the error and returns the empty string;
    when the status code is not 200 it returns the empty string and prints
    nothing. *)
Theorem personalize_failure_modes (E : environment)
    (row_data : gmap (list N) pyval) (w : world) (key : list N) :
  getenv E (lit "OPENAI_API_KEY") = Some key ->
  truthy (VStr key) = true ->
  let r := completion_request key (prompt_of E row_data) in
  (exists s, (personalize_with_ai E row_data w).1 = Returned s)
  /\ match requests_post E (posted w) r with
     | Raised e =>
         personalize_with_ai E row_data w =
         (Returned [], printed (SayAIFailed e) (requested r w))
     | Returned response =>
         if status_code response =? 200 then
           match json response with
           | Raised e =>
               personalize_with_ai E row_data w =
               (Returned [], printed (SayAIFailed e) (requested r w))
           | Returned result =>
               match completion_of result with
               | Raised e =>
                   personalize_with_ai E row_data w =
                   (Returned [], printed (SayAIFailed e) (requested r w))
               | Returned personalization =>
                   personalize_with_ai E row_data w =
                   (Returned (nl ++ nl ++ shorten personalization), requested r w)
               end
           end
         else
           personalize_with_ai E row_data w = (Returned [], requested r w)
     end.
Proof.
  intros Hkey Htruthy r.
  split.
  - destruct (personalize_with_ai_returns E row_data w) as (s & w' & -> & _).
    exists s. reflexivity.
  - rewrite personalize_with_ai_run, Hkey.
    destruct key as [|c key]; [discriminate|].
    unfold personalize_result. fold r.
    destruct (requests_post E (posted w) r) as [response|e]; [|reflexivity].
    destruct (status_code response =? 200); [|reflexivity].
    destruct (json response) as [result|e]; [|reflexivity].
    destruct (completion_of result); reflexivity.
Qed.

Lemma personalize_failure_modes_witness :
  personalize_with_ai
    (fixture_environment (Raised (LibraryError (lit "Timeout") (lit "timed out")))
       (Some (lit "sk-test")) VNone)
    ada signed_in_world =
  (Returned [],
   printed (SayAIFailed (LibraryError (lit "Timeout") (lit "timed out")))
     (requested
        (completion_request (lit "sk-test")
           (prompt_of
              (fixture_environment
                 (Raised (LibraryError (lit "Timeout") (lit "timed out")))
                 (Some (lit "sk-test")) VNone)
              ada))
        signed_in_world)).
Proof.
  exact (proj2 (personalize_failure_modes
                  (fixture_environment
                     (Raised (LibraryError (lit "Timeout") (lit "timed out")))
                     (Some (lit "sk-test")) VNone)
                  ada signed_in_world (lit "sk-test") eq_refl eq_refl)).
Defined.




(** * Further properties of the code *)

(** ** The log *)

(** X1: two calls of [log_result] on a path that does not exist yet leave
    the header followed by the two rows, in order: the header is written by
    the first call only. *)
Theorem log_result_header_once (csv_file : list N)
    (email1 company1 first_name1 : pyval) (subject1 : list N) (draft_id1 status1 : pyval)
    (email2 company2 first_name2 : pyval) (subject2 : list N) (draft_id2 status2 : pyval)
    (w : world) :
  files w !! csv_file = None ->
  files (log_result csv_file email2 company2 first_name2 subject2 draft_id2 status2
           (log_result csv_file email1 company1 first_name1 subject1 draft_id1 status1
              w).2).2 !! csv_file =
  Some [header_row;
        CsvRow [email1; company1; first_name1; VStr subject1; draft_id1; status1];
        CsvRow [email2; company2; first_name2; VStr subject2; draft_id2; status2]].
Proof.
  intros Hnew. rewrite !log_result_run. cbn [snd row_logged files].
  unfold with_row, with_rows. rewrite Hnew.
  rewrite !lookup_insert_eq. reflexivity.
Qed.

Lemma log_result_header_once_witness :
  files (log_result (lit "log.csv") (VStr (lit "grace@example.com")) (VStr (lit "Navy"))
           (VStr (lit "Grace")) SUBJECT_TEXT (VStr []) (VStr (lit "error"))
           (log_result (lit "log.csv") (VStr (lit "ada@example.com")) (VStr [])
              (VStr (lit "Ada")) SUBJECT_TEXT (VStr (lit "AAMk-example"))
              (VStr (lit "success")) fresh_world).2).2 !! lit "log.csv" =
  Some [header_row;
        CsvRow [VStr (lit "ada@example.com"); VStr []; VStr (lit "Ada");
                VStr SUBJECT_TEXT; VStr (lit "AAMk-example"); VStr (lit "success")];
        CsvRow [VStr (lit "grace@example.com"); VStr (lit "Navy"); VStr (lit "Grace");
                VStr SUBJECT_TEXT; VStr []; VStr (lit "error")]].
Proof.
  apply (log_result_header_once (lit "log.csv")). reflexivity.
Defined.

(** X2: [log_result] only appends, and only to its own file: what the file
    held stays in front of the new row, no header is added to a file that
    exists (even an empty one), every other file is as it was, and nothing
    is printed, posted or slept. *)
Theorem log_result_appends_only (csv_file : list N)
    (email company first_name : pyval) (subject : list N) (draft_id status : pyval)
    (w : world) :
  let row := CsvRow [email; company; first_name; VStr subject; draft_id; status] in
  let w' := (log_result csv_file email company first_name subject draft_id status w).2 in
  match files w !! csv_file with
  | Some old => files w' !! csv_file = Some (old ++ [row])
  | None => files w' !! csv_file = Some [header_row; row]
  end
  /\ (forall other, other <> csv_file -> files w' !! other = files w !! other)
  /\ console w' = console w /\ posted w' = posted w
  /\ access_token w' = access_token w /\ slept w' = slept w.
Proof.
  intros row w'. subst row w'. rewrite log_result_run.
  cbn [snd row_logged files console posted access_token slept].
  unfold with_row, with_rows.
  split; [|split; [|repeat split]].
  - destruct (files w !! csv_file); rewrite lookup_insert_eq; reflexivity.
  - intros other Hother. rewrite lookup_insert_ne by congruence. reflexivity.
Qed.

(** ** The token cache *)

(** X3: what [_load_token_cache] hands to [deserialize] right after a
    [_save_token_cache] is exactly the text [serialize] produced, whatever
    the cache file held before. *)
Theorem token_cache_round_trip (E : environment) (w : world) :
  let cache_data := msal_serialize E (msal_calls w) in
  bind (_save_token_cache E) (fun _ => _load_token_cache E) w =
  (msal_deserialize E [Text cache_data],
   msal_called (Deserialize [Text cache_data])
     (file_set TOKEN_CACHE_FILE [Text cache_data] (msal_called Serialize w))).
Proof.
  cbv zeta.
  unfold bind, _save_token_cache, _load_token_cache, bind, gets, msal, set_file,
    modify, lift.
  cbn [files file_set msal_called msal_calls].
  rewrite lookup_insert_eq. reflexivity.
Qed.

(** ** Authentication *)

(** X4: when no cached account yields a token and the device flow that
    MSAL starts carries no [user_code], [authenticate] prints that the flow
    could not be created and returns [False]; the token, the files and the
    console are otherwise as they were, and [acquire_token_by_device_flow]
    is not called. *)
Theorem authenticate_flow_not_created (E : environment) (w : world)
    (flow : gmap (list N) pyval) :
  no_silent_token E ->
  msal_initiate_device_flow E = Returned flow ->
  flow !! lit "user_code" = None ->
  authenticate E w =
  (Returned false,
   printed SayDeviceFlowFailed
     (msal_called_all (silent_attempt E ++ [InitiateDeviceFlow SCOPES]) w)).
Proof.
  intros [Hacc|(a & rest & r & Hacc & Hsilent & Hfalsy)] Hflow Hcode;
    unfold authenticate, silent_attempt, bind, msal, modify, lift;
    rewrite Hacc; [|rewrite Hsilent, Hfalsy];
    rewrite Hflow, Hcode;
    unfold print, modify, ret, printed, msal_called, msal_called_all;
    cbn [access_token console posted files msal_calls slept bool_decide negb];
    rewrite <- ?app_assoc; reflexivity.
Qed.

Lemma authenticate_flow_not_created_witness :
  (authenticate
     (device_flow_environment (Returned declined) (Returned declined) [])
     fresh_world).1 = Returned false.
Proof.
  rewrite (authenticate_flow_not_created
             (device_flow_environment (Returned declined) (Returned declined) [])
             fresh_world declined (or_introl eq_refl) eq_refl eq_refl).
  reflexivity.
Defined.

(** X5: when no cached account yields a token, the device flow carries a
    [user_code] and a [verification_uri], and its completion returns a dict
    with an [access_token], [authenticate] prints the address and the code,
    holds the token, writes the serialized cache to the cache file and
    returns [True]. *)
Theorem authenticate_by_device_flow (E : environment) (w : world)
    (flow result : gmap (list N) pyval) (code uri tok : pyval) :
  no_silent_token E ->
  msal_initiate_device_flow E = Returned flow ->
  flow !! lit "user_code" = Some code ->
  flow !! lit "verification_uri" = Some uri ->
  msal_acquire_token_by_device_flow E flow = Returned result ->
  result !! lit "access_token" = Some tok ->
  let calls :=
    msal_calls w ++ silent_attempt E
    ++ [InitiateDeviceFlow SCOPES; AcquireTokenByDeviceFlow flow] in
  authenticate E w =
  (Returned true,
   World tok (console w ++ [SaySignIn uri; SayEnterCode code]) (posted w)
         (<[TOKEN_CACHE_FILE := [Text (msal_serialize E calls)]]> (files w))
         (calls ++ [Serialize]) (slept w)).
Proof.
  intros [Hacc|(a & rest & r & Hacc & Hsilent & Hfalsy)] Hflow Hcode Huri Hdone Htok;
    cbv zeta;
    unfold authenticate, silent_attempt, bind, msal, modify, lift;
    rewrite Hacc; [|rewrite Hsilent, Hfalsy];
    rewrite Hflow, Hcode;
    cbn [subscript]; rewrite Huri, Hcode;
    unfold print, modify;
    rewrite Hdone, Htok;
    rewrite !bool_decide_eq_true_2 by eauto; cbn [negb];
    unfold set_access_token, _save_token_cache, bind, gets, msal, set_file, modify, ret,
      token_set, msal_called, file_set, printed;
    cbn [access_token console posted files msal_calls slept];
    rewrite <- ?app_assoc; cbn [app]; reflexivity.
Qed.

Lemma authenticate_by_device_flow_witness :
  (authenticate
     (device_flow_environment (Returned pending_flow) (Returned granted) [])
     fresh_world).1 = Returned true.
Proof.
  rewrite (authenticate_by_device_flow
             (device_flow_environment (Returned pending_flow) (Returned granted) [])
             fresh_world pending_flow granted
             (VStr (lit "ABCD-1234")) (VStr (lit "https://microsoft.com/devicelogin"))
             (VStr (lit "eyJ0-token"))
             (or_introl eq_refl) eq_refl eq_refl eq_refl eq_refl eq_refl).
  reflexivity.
Defined.

(** X6: when the device flow completes with a dict that has no
    [access_token], [authenticate] prints its [error_description] (or
    ["Unknown error"] when there is none) and returns [False]; the token
    and the files are as they were. *)
Theorem authenticate_declined (E : environment) (w : world)
    (flow result : gmap (list N) pyval) (code uri : pyval) :
  no_silent_token E ->
  msal_initiate_device_flow E = Returned flow ->
  flow !! lit "user_code" = Some code ->
  flow !! lit "verification_uri" = Some uri ->
  msal_acquire_token_by_device_flow E flow = Returned result ->
  result !! lit "access_token" = None ->
  authenticate E w =
  (Returned false,
   printed_all
     [SaySignIn uri; SayEnterCode code;
      SayAuthFailed (get result (lit "error_description") (VStr (lit "Unknown error")))]
     (msal_called_all
        (silent_attempt E ++ [InitiateDeviceFlow SCOPES; AcquireTokenByDeviceFlow flow])
        w)).
Proof.
  intros [Hacc|(a & rest & r & Hacc & Hsilent & Hfalsy)] Hflow Hcode Huri Hdone Htok;
    unfold authenticate, silent_attempt, bind, msal, modify, lift;
    rewrite Hacc; [|rewrite Hsilent, Hfalsy];
    rewrite Hflow, Hcode;
    cbn [subscript]; rewrite Huri, Hcode;
    unfold print, modify;
    rewrite Hdone, Htok;
    rewrite bool_decide_eq_true_2 by eauto;
    rewrite bool_decide_eq_false_2 by (intros [? ?]; discriminate); cbn [negb];
    unfold ret, msal_called, printed, printed_all, msal_called_all;
    cbn [access_token console posted files msal_calls slept];
    rewrite <- ?app_assoc; cbn [app]; reflexivity.
Qed.

Lemma authenticate_declined_witness :
  console (authenticate
             (device_flow_environment (Returned pending_flow) (Returned declined) [])
             fresh_world).2 =
  [SaySignIn (VStr (lit "https://microsoft.com/devicelogin"));
   SayEnterCode (VStr (lit "ABCD-1234"));
   SayAuthFailed (VStr (lit "The user declined."))].
Proof.
  rewrite (authenticate_declined
             (device_flow_environment (Returned pending_flow) (Returned declined) [])
             fresh_world pending_flow declined
             (VStr (lit "ABCD-1234")) (VStr (lit "https://microsoft.com/devicelogin"))
             (or_introl eq_refl) eq_refl eq_refl eq_refl eq_refl eq_refl).
  reflexivity.
Defined.

Lemma authenticate_outcomes (E : environment) (w : world) :
  let run := authenticate E w in
  posted run.2 = posted w
  /\ slept run.2 = slept w
  /\ match run.1 with
     | Returned true =>
         exists cache_data calls,
           files run.2 = <[TOKEN_CACHE_FILE := [Text cache_data]]> (files w)
           /\ msal_calls run.2 = calls ++ [Serialize]
     | _ => files run.2 = files w /\ access_token run.2 = access_token w
     end.
Proof.
  cbv zeta.
  unfold authenticate, bind, msal, modify, lift, print, modify, ret,
    set_access_token, _save_token_cache, bind, gets, msal, set_file, modify, ret,
    token_set, msal_called, file_set, printed.
  repeat (match goal with
          | |- context [match ?x with _ => _ end] => destruct x eqn:?
          end;
          cbn [fst snd access_token console posted files msal_calls slept]);
    repeat split; eauto.
Qed.

(** X7: [authenticate] returns [True] only after it has overwritten the
    cache file with exactly the text [serialize] gave for the MSAL calls
    made until then, [serialize] being its last call on the application;
    and when it returns [False] the token and every file are as they
    were. *)
Theorem authenticate_all_or_nothing (E : environment) (w : world) :
  let run := authenticate E w in
  (run.1 = Returned true ->
   exists calls,
     msal_calls run.2 = calls ++ [Serialize]
     /\ files run.2 =
        <[TOKEN_CACHE_FILE := [Text (msal_serialize E calls)]]> (files w))
  /\ (run.1 = Returned false ->
      files run.2 = files w /\ access_token run.2 = access_token w).
Proof.
  cbv zeta.
  unfold authenticate, bind, msal, modify, lift, print, modify, ret,
    set_access_token, _save_token_cache, bind, gets, msal, set_file, modify, ret,
    token_set, msal_called, file_set, printed.
  repeat (match goal with
          | |- context [match ?x with _ => _ end] => destruct x eqn:?
          end;
          cbn [fst snd access_token console posted files msal_calls slept]);
    split; intros Hout; try discriminate Hout;
    first [eexists; split; reflexivity | split; reflexivity].
Qed.

(** ** Cleaning a record *)

(** X8: the cleaning loop keeps the keys of the record, leaves no missing
    value behind, keeps every value that is not missing as it is, and
    cleaning twice is cleaning once. *)
Theorem clean_leaves_no_missing_value (row : gmap (list N) pyval) :
  dom (clean row) = dom row
  /\ (forall key value, clean row !! key = Some value -> isna value = false)
  /\ (forall key value,
        row !! key = Some value -> isna value = false ->
        clean row !! key = Some value)
  /\ clean (clean row) = clean row.
Proof.
  unfold clean. split; [|split; [|split]].
  - apply dom_fmap_L.
  - intros key value. rewrite lookup_fmap.
    destruct (row !! key) as [v|]; [|discriminate].
    cbn [fmap option_fmap option_map]. intros [= <-].
    destruct (isna v) eqn:Hv; [reflexivity|exact Hv].
  - intros key value Hkey Hvalue. rewrite lookup_fmap, Hkey.
    cbn [fmap option_fmap option_map]. rewrite Hvalue. reflexivity.
  - rewrite <- map_fmap_compose. apply map_fmap_ext.
    intros key v _. unfold compose.
    destruct (isna v) eqn:Hv; [reflexivity|]. rewrite Hv. reflexivity.
Qed.

(** ** The added sentence *)

(** X9: whatever the text service answers, [personalize_with_ai] returns
    either the empty string or two newlines followed by at most 200
    characters, so never more than 202 characters, and it posts at most one
    request, to the completions address with a timeout of 10 seconds. *)
Theorem personalize_bounded (E : environment) (row_data : gmap (list N) pyval)
    (w : world) :
  let run := personalize_with_ai E row_data w in
  exists s,
    run.1 = Returned s
    /\ (s = [] \/ exists t, s = nl ++ nl ++ t /\ (length t <= 200)%nat)
    /\ (length s <= 202)%nat
    /\ (posted run.2 = posted w
        \/ exists r, posted run.2 = posted w ++ [r]
                     /\ req_url r = completions_url
                     /\ req_timeout r = Some 10).
Proof.
  cbv zeta. rewrite personalize_with_ai_run.
  assert (Hempty : forall w', posted w' = posted w \/
                     (exists r, posted w' = posted w ++ [r]
                                /\ req_url r = completions_url
                                /\ req_timeout r = Some 10) ->
            exists s, (Returned (A := list N) [], w').1 = Returned s
              /\ (s = [] \/ exists t, s = nl ++ nl ++ t /\ (length t <= 200)%nat)
              /\ (length s <= 202)%nat
              /\ (posted (Returned (A := list N) [], w').2 = posted w
                  \/ exists r, posted (Returned (A := list N) [], w').2 = posted w ++ [r]
                               /\ req_url r = completions_url
                               /\ req_timeout r = Some 10)).
  { intros w' Hw'. exists []. split; [reflexivity|]. split; [left; reflexivity|].
    split; [simpl; lia|exact Hw']. }
  destruct (getenv E (lit "OPENAI_API_KEY")) as [[|c key]|];
    [apply Hempty; left; reflexivity| |apply Hempty; left; reflexivity].
  unfold personalize_result.
  set (r := completion_request (c :: key) (prompt_of E row_data)).
  assert (Hr : exists r', posted (requested r w) = posted w ++ [r']
                          /\ req_url r' = completions_url
                          /\ req_timeout r' = Some 10).
  { exists r. repeat split. }
  destruct (requests_post E (posted w) r) as [response|e];
    [|apply Hempty; right; exact Hr].
  destruct (status_code response =? 200); [|apply Hempty; right; exact Hr].
  destruct (json response) as [result|e]; [|apply Hempty; right; exact Hr].
  destruct (completion_of result) as [p|e]; [|apply Hempty; right; exact Hr].
  exists (nl ++ nl ++ shorten p). cbn [fst snd].
  pose proof (shorten_length p) as Hlen.
  split; [reflexivity|]. split; [right; eauto|].
  split; [|right; exact Hr].
  rewrite !length_app. change (length nl) with 1%nat. lia.
Qed.

(** ** One turn of the loop, exactly *)

Section Turn.

Context (E : environment).

Lemma render_template_closed (template_text : list N)
    (row_data : gmap (list N) pyval) (w : world) :
  render_template E template_text row_data w =
  (Returned (rendered E template_text row_data),
   render_noted E template_text row_data w).
Proof.
  rewrite render_template_run. unfold rendered, render_noted.
  destruct (jinja2_render E template_text row_data); reflexivity.
Qed.

Lemma process_contact_exact (args : arguments) (len_df : nat) (index : Z)
    (row : gmap (list N) pyval) (w : world) :
  let '(subject, body, w1) := prepared E args row w in
  let email := email_of row in
  if truthy email then
    exists result status line,
      (create_draft E email subject body (printed (SayCreating email) w1)).1
        = Returned result
      /\ ((exists draft_id, result = success_result draft_id)
          \/ (exists detail, result = failure_result detail))
      /\ result !! lit "status" = Some (VStr status)
      /\ is_skip line = false
      /\ process_contact E args len_df index row w =
         pace args len_df index
           (printed line
              (row_logged (log_csv args)
                 (audit_row email
                    (get (clean row) (lit "company") (VStr []))
                    (get (clean row) (lit "first_name") (VStr []))
                    subject
                    (get result (lit "draft_id") (VStr []))
                    status)
                 (create_draft E email subject body
                    (printed (SayCreating email) w1)).2))
  else
    process_contact E args len_df index row w =
    (Returned tt, printed (SaySkip (index + 1)) w1).
Proof.
  unfold prepared, process_contact, email_of.
  set (row_data := clean row).
  set (email := get row_data (lit "email") (VStr [])).
  rewrite (bind_returned _ _ _ _ _ (render_template_closed SUBJECT_TEXT row_data w)).
  rewrite (bind_returned _ _ _ _ _
             (render_template_closed BODY_TEXT row_data
                (render_noted E SUBJECT_TEXT row_data w))).
  set (subject := rendered E SUBJECT_TEXT row_data).
  set (body0 := rendered E BODY_TEXT row_data).
  set (wa := render_noted E BODY_TEXT row_data (render_noted E SUBJECT_TEXT row_data w)).
  assert (Hprep : exists body w1,
    (if ai_personalize args
     then let* personalization := personalize_with_ai E row_data
          in ret (if truthy (VStr personalization)
                  then body0 ++ personalization else body0)
     else ret body0) wa = (Returned body, w1)
    /\ (if ai_personalize args
        then match personalize_with_ai E row_data wa with
             | (Returned personalization, wb) => (subject, body0 ++ personalization, wb)
             | (Raised _, wb) => (subject, body0, wb)
             end
        else (subject, body0, wa)) = (subject, body, w1)).
  { destruct (ai_personalize args).
    - destruct (personalize_with_ai_returns E row_data wa) as (p & wc & Hc & _).
      rewrite (bind_returned _ _ _ _ _ Hc), Hc.
      exists (body0 ++ p), wc. split; [|reflexivity].
      unfold ret. destruct p; [rewrite app_nil_r|]; reflexivity.
    - exists body0, wa. split; reflexivity. }
  destruct Hprep as (body & w1 & Hrun & ->).
  rewrite (bind_returned _ _ _ _ _ Hrun).
  cbv zeta.
  destruct (truthy email) eqn:Hemail; cbn [negb]; [|reflexivity].
  destruct (create_draft_returns E email subject body (printed (SayCreating email) w1))
    as (result & Hres & Hcases).
  destruct (create_draft E email subject body (printed (SayCreating email) w1))
    as [o w2] eqn:Hcd.
  simpl in Hres. subst o.
  rewrite bind_print.
  rewrite (bind_returned _ _ _ _ _ Hcd).
  destruct Hcases as [[draft_id ->]|[detail ->]].
  - exists (success_result draft_id), (lit "success"), (SayDraftOk draft_id).
    split; [reflexivity|]. split; [left; eauto|]. split; [reflexivity|].
    split; [reflexivity|].
    unfold bind, lift. simpl subscript.
    rewrite success_result_status, log_result_run.
    change (eq_str (VStr (lit "success")) (lit "success")) with true.
    cbv iota beta.
    change (subscript (VDict (success_result draft_id)) (VStr (lit "draft_id")))
      with (Returned draft_id).
    unfold pace, to_seconds, sleep_ms, bind, print, modify, raise, ret.
    destruct (index <? Z.of_nat len_df - 1);
      [destruct (FLOAT_LIMIT <=? Z.abs (delay_ms args));
       [|destruct (SLEEP_MAX_MS <? Z.abs (delay_ms args));
         [|destruct (delay_ms args <? 0)]]|];
      reflexivity.
  - exists (failure_result detail), (lit "error"), (SayDraftFailed (VStr detail)).
    split; [reflexivity|]. split; [right; eauto|]. split; [reflexivity|].
    split; [reflexivity|].
    unfold bind, lift. simpl subscript.
    rewrite failure_result_status, log_result_run.
    change (eq_str (VStr (lit "error")) (lit "success")) with false.
    cbv iota beta.
    unfold pace, to_seconds, sleep_ms, bind, print, modify, raise, ret.
    destruct (index <? Z.of_nat len_df - 1);
      [destruct (FLOAT_LIMIT <=? Z.abs (delay_ms args));
       [|destruct (SLEEP_MAX_MS <? Z.abs (delay_ms args));
         [|destruct (delay_ms args <? 0)]]|];
      reflexivity.
Qed.

End Turn.

Lemma render_noted_frame (E : environment) (template_text : list N)
    (row_data : gmap (list N) pyval) (w : world) :
  posted (render_noted E template_text row_data w) = posted w
  /\ access_token (render_noted E template_text row_data w) = access_token w
  /\ files (render_noted E template_text row_data w) = files w.
Proof.
  unfold render_noted. destruct (jinja2_render E template_text row_data);
    repeat split.
Qed.

Lemma personalize_posts_once (E : environment) (row_data : gmap (list N) pyval)
    (w : world) (key : list N) :
  getenv E (lit "OPENAI_API_KEY") = Some key ->
  truthy (VStr key) = true ->
  exists s w',
    personalize_with_ai E row_data w = (Returned s, w')
    /\ posted w' = posted w ++ [completion_request key (prompt_of E row_data)]
    /\ access_token w' = access_token w
    /\ files w' = files w.
Proof.
  intros Hkey Htruthy. rewrite personalize_with_ai_run, Hkey.
  destruct key as [|c key]; [discriminate|].
  unfold personalize_result.
  destruct (requests_post E (posted w) _) as [response|e]; [|eexists _, _; repeat split].
  destruct (status_code response =? 200); [|eexists _, _; repeat split].
  destruct (json response) as [result|e]; [|eexists _, _; repeat split].
  destruct (completion_of result); eexists _, _; repeat split.
Qed.

(** X10: with personalization switched on and a key configured, a contact
    without an address still costs one completion request before it is
    skipped: the request is made before [email] is tested.  Nothing is
    written and the turn ends normally. *)
Theorem skipped_contact_still_personalized (E : environment) (args : arguments)
    (len_df : nat) (index : Z) (row : gmap (list N) pyval) (w : world)
    (key : list N) :
  ai_personalize args = true ->
  getenv E (lit "OPENAI_API_KEY") = Some key ->
  truthy (VStr key) = true ->
  truthy (email_of row) = false ->
  let run := process_contact E args len_df index row w in
  run.1 = Returned tt
  /\ posted run.2 = posted w ++ [completion_request key (prompt_of E (clean row))]
  /\ files run.2 = files w.
Proof.
  intros Hai Hkey Htruthy Hemail. cbv zeta.
  pose proof (process_contact_exact E args len_df index row w) as H.
  unfold prepared in H. rewrite Hai in H.
  destruct (personalize_posts_once E (clean row)
              (render_noted E BODY_TEXT (clean row)
                 (render_noted E SUBJECT_TEXT (clean row) w)) key Hkey Htruthy)
    as (s & wb & Hrun & Hposted & _ & Hfiles).
  rewrite Hrun in H. cbv zeta in H. rewrite Hemail in H. rewrite H.
  cbn [fst snd printed posted files].
  destruct (render_noted_frame E BODY_TEXT (clean row)
              (render_noted E SUBJECT_TEXT (clean row) w)) as (Hp2 & _ & Hf2).
  destruct (render_noted_frame E SUBJECT_TEXT (clean row) w) as (Hp1 & _ & Hf1).
  split; [reflexivity|]. split; congruence.
Qed.

Lemma skipped_contact_still_personalized_witness :
  length (posted (process_contact
                    (fixture_environment (Returned (completion_response (lit "Hello.")))
                       (Some (lit "sk-test")) VNone)
                    (fixture_arguments 0 true) 3 1 nobody signed_in_world).2) = 1%nat.
Proof.
  rewrite (proj1 (proj2 (skipped_contact_still_personalized
             (fixture_environment (Returned (completion_response (lit "Hello.")))
                (Some (lit "sk-test")) VNone)
             (fixture_arguments 0 true) 3 1 nobody signed_in_world (lit "sk-test")
             eq_refl eq_refl eq_refl eq_refl))).
  reflexivity.
Defined.

(** X11: with personalization switched off, a contact with an address and
    a token in hand lead to exactly one request: the draft addressed to the
    contact, whose subject and body are the two templates as rendered, or
    the raw template texts when the template engine rejects them.  The row
    logged carries the same subject. *)
Theorem draft_carries_rendered_templates (E : environment) (args : arguments)
    (len_df : nat) (index : Z) (row : gmap (list N) pyval) (w : world) :
  ai_personalize args = false ->
  truthy (email_of row) = true ->
  truthy (access_token w) = true ->
  let subject := rendered E SUBJECT_TEXT (clean row) in
  let body := rendered E BODY_TEXT (clean row) in
  let run := process_contact E args len_df index row w in
  posted run.2 =
    posted w ++ [draft_request E (access_token w) (email_of row) subject body]
  /\ exists draft_id status,
       files run.2 =
       with_row (files w) (log_csv args)
         (audit_row (email_of row)
            (get (clean row) (lit "company") (VStr []))
            (get (clean row) (lit "first_name") (VStr []))
            subject draft_id status).
Proof.
  intros Hai Hemail Htok. cbv zeta.
  pose proof (process_contact_exact E args len_df index row w) as H.
  unfold prepared in H. rewrite Hai in H. cbv zeta in H. rewrite Hemail in H.
  destruct H as (result & status & line & _ & _ & _ & _ & ->).
  set (wa := render_noted E BODY_TEXT (clean row)
               (render_noted E SUBJECT_TEXT (clean row) w)).
  assert (Hwa : posted wa = posted w /\ access_token wa = access_token w
                /\ files wa = files w).
  { subst wa.
    destruct (render_noted_frame E BODY_TEXT (clean row)
                (render_noted E SUBJECT_TEXT (clean row) w)) as (Hp2 & Ht2 & Hf2).
    destruct (render_noted_frame E SUBJECT_TEXT (clean row) w) as (Hp1 & Ht1 & Hf1).
    repeat split; congruence. }
  destruct Hwa as (Hp & Ht & Hf).
  rewrite create_draft_run.
  cbn [printed access_token posted]. rewrite Ht, Htok. cbv zeta. cbn [snd].
  split.
  - unfold pace.
    destruct (index <? Z.of_nat len_df - 1);
      [destruct (FLOAT_LIMIT <=? Z.abs (delay_ms args));
       [|destruct (SLEEP_MAX_MS <? Z.abs (delay_ms args));
         [|destruct (delay_ms args <? 0)]]|];
      cbn [snd posted paused printed row_logged requested]; rewrite Hp; reflexivity.
  - exists (get result (lit "draft_id") (VStr [])), status.
    unfold pace.
    destruct (index <? Z.of_nat len_df - 1);
      [destruct (FLOAT_LIMIT <=? Z.abs (delay_ms args));
       [|destruct (SLEEP_MAX_MS <? Z.abs (delay_ms args));
         [|destruct (delay_ms args <? 0)]]|];
      cbn [snd files paused printed row_logged requested]; rewrite Hf; reflexivity.
Qed.

Lemma draft_carries_rendered_templates_witness :
  posted (process_contact
            (failing_renderer (fixture_environment (Returned created_response) None VNone))
            (fixture_arguments 0 false) 1 0 ada signed_in_world).2 =
  [draft_request
     (failing_renderer (fixture_environment (Returned created_response) None VNone))
     (VStr (lit "eyJ0-token")) (VStr (lit "ada@example.com"))
     SUBJECT_TEXT BODY_TEXT].
Proof.
  rewrite (proj1 (draft_carries_rendered_templates
             (failing_renderer (fixture_environment (Returned created_response) None VNone))
             (fixture_arguments 0 false) 1 0 ada signed_in_world
             eq_refl eq_refl eq_refl)).
  reflexivity.
Defined.

(** ** The whole batch *)

Section Batch.

Context (E : environment).




Lemma with_row_then_rows (fs : gmap (list N) (list file_record)) (path : list N)
    (a : file_record) (rows : list file_record) :
  append_rows (with_row fs path a) path rows = with_rows fs path (a :: rows).
Proof.
  destruct rows as [|b rows]; [reflexivity|].
  unfold append_rows, with_row, with_rows.
  rewrite lookup_insert_eq, insert_insert_eq, <- app_assoc. reflexivity.
Qed.

Lemma recipient_of_draft_request (tok email : pyval) (subject body : list N) :
  recipient_of (draft_request E tok email subject body) = Returned email.
Proof. reflexivity. Qed.



(** Whether it ends or is cut short, a batch only appends rows to the log. *)
Lemma process_contacts_files (args : arguments) (len_df : nat) :
  forall (rows : list (gmap (list N) pyval)) (index : Z) (w : world),
  exists logged,
    files (process_contacts E args len_df index rows w).2 =
    append_rows (files w) (log_csv args) logged.
Proof.
  induction rows as [|row rest IH]; intros index w.
  - exists []. reflexivity.
  - cbn [process_contacts].
    destruct (process_contact_effects E args len_df index row w)
      as (out & w1 & Hrun & Heff).
    destruct (IH (index + 1) w1) as (logged & Hrest).
    unfold bind at 1. rewrite Hrun.
    destruct (truthy (email_of row)).
    + destruct Heff as ((s1 & d1 & st1 & Hfiles & _) & _).
      destruct out as [[]|e].
      * eexists (_ :: logged). rewrite Hrest, Hfiles. apply with_row_then_rows.
      * eexists [_]. cbn [snd]. rewrite Hfiles. reflexivity.
    + destruct Heff as (-> & Hfiles & _).
      exists logged. rewrite Hrest, Hfiles. reflexivity.
Qed.


End Batch.







(** X15: a delay that [time.sleep] does not accept stops the batch: when
    the first contact has an address and is not the only row, the rate
    limiting raises after that contact's row was logged ([ValueError] for a
    negative delay down to -9223372036854 ms, [OverflowError] beyond
    9223372036854 ms on either side), the exception leaves the loop, and no
    later contact is processed. *)
Theorem rejected_delay_aborts (E : environment) (args : arguments)
    (row next : gmap (list N) pyval) (rest : list (gmap (list N) pyval))
    (w : world) :
  delay_ms args < 0 \/ SLEEP_MAX_MS < delay_ms args ->
  truthy (email_of row) = true ->
  let rows := row :: next :: rest in
  let run := process_contacts E args (length rows) 0 rows w in
  run.1 = Raised (if SLEEP_MAX_MS <? Z.abs (delay_ms args)
                  then OverflowError
                  else ValueError (lit "sleep length must be non-negative"))
  /\ (exists a, audit_of row a
                /\ files run.2 = with_row (files w) (log_csv args) a)
  /\ skip_notices run.2 = skip_notices w
  /\ slept run.2 = slept w.
Proof.
  intros Hdelay Hemail. cbv zeta.
  assert (Hrejects : sleep_accepts (delay_ms args) = false).
  { unfold sleep_accepts. apply andb_false_iff.
    destruct Hdelay; [left; apply Z.leb_gt|right; apply Z.leb_gt]; lia. }
  cbn [process_contacts].
  destruct (process_contact_effects E args (length (row :: next :: rest)) 0 row w)
    as (out & w1 & Hrun & Heff).
  rewrite Hemail in Heff.
  destruct Heff as ((s1 & d1 & st1 & Hfiles & Hstatus & _) & Hskip & Hpace).
  replace (0 <? Z.of_nat (length (row :: next :: rest)) - 1) with true in Hpace
    by (symmetry; apply Z.ltb_lt; cbn [length]; lia).
  rewrite Hrejects in Hpace. injection Hpace as -> Hslept.
  assert (Hall :
    (process_contact E args (length (row :: next :: rest)) 0 row ;;;
     process_contacts E args (length (row :: next :: rest)) (0 + 1) (next :: rest)) w
    = (Raised (pause_error (delay_ms args)), w1))
    by (unfold bind at 1; rewrite Hrun; reflexivity).
  cbn [process_contacts] in Hall. rewrite Hall. cbn [fst snd].
  split; [reflexivity|]. split; [|split; assumption].
  eexists. split; [|exact Hfiles].
  exists s1, d1, st1. split; [reflexivity|exact Hstatus].
Qed.

Lemma rejected_delay_aborts_witness :
  (process_contacts (fixture_environment (Returned created_response) None VNone)
     (fixture_arguments (-5) false) 3 0 [ada; nobody; grace] signed_in_world).1
  = Raised (ValueError (lit "sleep length must be non-negative")).
Proof.
  exact (proj1 (rejected_delay_aborts
                  (fixture_environment (Returned created_response) None VNone)
                  (fixture_arguments (-5) false) ada nobody [grace]
                  signed_in_world (or_introl eq_refl) eq_refl)).
Defined.

(** X16: with a delay that is not negative, a batch writes to the log file
    only: every other file is as it was, and what the log held before stays
    in front of what the batch appended. *)
Theorem batch_writes_only_the_log (E : environment) (args : arguments)
    (len_df : nat) (index : Z) (rows : list (gmap (list N) pyval)) (w : world) :
  0 <= delay_ms args ->
  let run := process_contacts E args len_df index rows w in
  (forall other, other <> log_csv args ->
                 files run.2 !! other = files w !! other)
  /\ (forall old, files w !! log_csv args = Some old ->
                  exists logged, files run.2 !! log_csv args = Some (old ++ logged)).
Proof.
  intros _. cbv zeta.
  destruct (process_contacts_files E args len_df rows index w) as (logged & Hfiles).
  rewrite Hfiles. unfold append_rows, with_rows.
  split.
  - intros other Hother. destruct logged; [reflexivity|].
    rewrite lookup_insert_ne by congruence. reflexivity.
  - intros old Hold. destruct logged as [|a logged].
    + exists []. rewrite app_nil_r. exact Hold.
    + exists (a :: logged). rewrite Hold, lookup_insert_eq. reflexivity.
Qed.

Lemma batch_writes_only_the_log_witness :
  files (process_contacts (fixture_environment (Returned created_response) None VNone)
           (fixture_arguments 0 false) 3 0 [ada; nobody; grace]
           (with_sheet signed_in_world)).2 !! lit "contacts.xlsx"
  = files (with_sheet signed_in_world) !! lit "contacts.xlsx".
Proof.
  apply (proj1 (batch_writes_only_the_log
                  (fixture_environment (Returned created_response) None VNone)
                  (fixture_arguments 0 false) 3 0 [ada; nobody; grace]
                  (with_sheet signed_in_world) ltac:(vm_compute; discriminate))).
  vm_compute. discriminate.
Defined.

(** ** The program as a whole *)

Section Main.

Context (E : environment).

Lemma main_loaded (args : arguments) (w : world) (content : list file_record)
    (df : list (gmap (list N) pyval)) :
  files w !! excel args = Some content ->
  read_excel E content (sheet args) = Returned df ->
  main E args w =
  (init_creator E ;;;
   let* authenticated := authenticate E in
   if negb authenticated then print SayAuthExit
   else
     print SayAuthOk ;;;
     process_contacts E args (length df) 0 df ;;;
     print (SayComplete (log_csv args)))
    (printed (SayLoaded (length df)) w).
Proof.
  intros Hfile Hread.
  unfold main. unfold bind at 1. unfold path_exists, gets.
  rewrite Hfile. rewrite bool_decide_eq_true_2 by eauto. cbn [negb].
  unfold bind at 1. unfold try_except, bind at 1, gets. unfold bind at 1. unfold lift.
  rewrite Hfile. cbn [default id]. rewrite Hread.
  reflexivity.
Qed.

Lemma init_creator_frame (w : world) :
  access_token (init_creator E w).2 = VNone
  /\ files (init_creator E w).2 = files w
  /\ posted (init_creator E w).2 = posted w
  /\ slept (init_creator E w).2 = slept w.
Proof.
  unfold init_creator, _load_token_cache, bind, set_access_token, gets, msal, modify,
    lift, ret, token_set, msal_called.
  cbn [files]. destruct (files w !! TOKEN_CACHE_FILE); cbn; repeat split.
Qed.

End Main.

(** X17: when the sheet file does not exist, [main] prints that it was
    not found; when the file exists and reading it raises, [main] prints
    the exception that was raised.  Either way it returns normally and
    nothing else changes: no authentication is attempted, nothing is
    posted and no file is written. *)
Theorem main_stops_without_sheet (E : environment) (args : arguments) (w : world) :
  (files w !! excel args = None ->
   main E args w = (Returned tt, printed (SayExcelNotFound (excel args)) w))
  /\ (forall content e,
        files w !! excel args = Some content ->
        read_excel E content (sheet args) = Raised e ->
        main E args w = (Returned tt, printed (SayExcelError e) w)).
Proof.
  split.
  - intros Hfile.
    unfold main. unfold bind at 1. unfold path_exists, gets.
    rewrite Hfile.
    rewrite bool_decide_eq_false_2 by (intros [? ?]; discriminate).
    reflexivity.
  - intros content e Hfile Hread.
    unfold main. unfold bind at 1. unfold path_exists, gets.
    rewrite Hfile. rewrite bool_decide_eq_true_2 by eauto. cbn [negb].
    unfold bind at 1. unfold try_except, bind at 1, gets. unfold bind at 1. unfold lift.
    rewrite Hfile. cbn [default id]. rewrite Hread.
    reflexivity.
Qed.

Lemma main_stops_without_sheet_witness :
  main (fixture_environment (Returned created_response) None VNone)
    (fixture_arguments 0 false) fresh_world =
  (Returned tt,
   printed (SayExcelNotFound (excel (fixture_arguments 0 false))) fresh_world).
Proof.
  exact (proj1 (main_stops_without_sheet
                  (fixture_environment (Returned created_response) None VNone)
                  (fixture_arguments 0 false) fresh_world) eq_refl).
Defined.

(** X18: when the sheet is read and the creator is set up but
    [authenticate] returns [False], [main] prints that it exits and returns
    normally without processing any contact: no request is posted, no file
    is written (the log is not created), nothing is slept, and no token is
    held. *)
Theorem main_stops_when_authentication_fails (E : environment) (args : arguments)
    (w : world) (content : list file_record) (df : list (gmap (list N) pyval)) :
  files w !! excel args = Some content ->
  read_excel E content (sheet args) = Returned df ->
  let w0 := (init_creator E (printed (SayLoaded (length df)) w)) in
  w0.1 = Returned tt ->
  (authenticate E w0.2).1 = Returned false ->
  main E args w = (Returned tt, printed SayAuthExit (authenticate E w0.2).2)
  /\ posted (main E args w).2 = posted w
  /\ files (main E args w).2 = files w
  /\ slept (main E args w).2 = slept w
  /\ access_token (main E args w).2 = VNone.
Proof.
  intros Hfile Hread w0 Hinit Hauth.
  assert (Hmain : main E args w =
                  (Returned tt, printed SayAuthExit (authenticate E w0.2).2)).
  { rewrite (main_loaded E args w content df Hfile Hread).
    rewrite (bind_returned _ _ _ _ _
               (eq_trans (surjective_pairing _) (f_equal (fun o => (o, w0.2)) Hinit))).
    rewrite (bind_returned _ _ _ _ _
               (eq_trans (surjective_pairing _)
                  (f_equal (fun o => (o, (authenticate E w0.2).2)) Hauth))).
    reflexivity. }
  rewrite Hmain. split; [reflexivity|].
  cbn [snd printed posted files slept access_token].
  pose proof (authenticate_outcomes E w0.2) as Hout. cbv zeta in Hout.
  rewrite Hauth in Hout. destruct Hout as (Hp & Hs & Hf & Ht).
  destruct (init_creator_frame E (printed (SayLoaded (length df)) w))
    as (Ht0 & Hf0 & Hp0 & Hs0).
  fold w0 in Ht0, Hf0, Hp0, Hs0.
  rewrite Hp, Hs, Hf, Ht, Hp0, Hs0, Hf0, Ht0. repeat split.
Qed.

Lemma main_stops_when_authentication_fails_witness :
  posted (main (device_flow_environment (Returned pending_flow) (Returned declined)
                  [ada; nobody; grace])
            (fixture_arguments 0 false) (with_sheet fresh_world)).2
  = posted (with_sheet fresh_world).
Proof.
  exact (proj1 (proj2 (main_stops_when_authentication_fails
           (device_flow_environment (Returned pending_flow) (Returned declined)
              [ada; nobody; grace])
           (fixture_arguments 0 false) (with_sheet fresh_world)
           [Text (lit "sheet")] [ada; nobody; grace]
           eq_refl eq_refl eq_refl eq_refl))).
Defined.



(** ** What is submitted and what is logged *)

(** X20: with personalization switched on, a contact with an address and a
    token in hand, the draft submitted carries the rendered body followed
    by whatever [personalize_with_ai] returned for the cleaned record (the
    empty string when it failed), and the rendered subject. *)
Theorem draft_body_carries_personalization (E : environment) (args : arguments)
    (len_df : nat) (index : Z) (row : gmap (list N) pyval) (w : world) :
  ai_personalize args = true ->
  truthy (email_of row) = true ->
  truthy (access_token w) = true ->
  let subject := rendered E SUBJECT_TEXT (clean row) in
  let body := rendered E BODY_TEXT (clean row) in
  let ai := personalize_with_ai E (clean row)
              (render_noted E BODY_TEXT (clean row)
                 (render_noted E SUBJECT_TEXT (clean row) w)) in
  exists personalization,
    ai.1 = Returned personalization
    /\ posted (process_contact E args len_df index row w).2 =
       posted ai.2
       ++ [draft_request E (access_token w) (email_of row) subject
             (body ++ personalization)].
Proof.
  intros Hai Hemail Htok. cbv zeta.
  pose proof (process_contact_exact E args len_df index row w) as H.
  unfold prepared in H. rewrite Hai in H.
  destruct (personalize_with_ai_returns E (clean row)
              (render_noted E BODY_TEXT (clean row)
                 (render_noted E SUBJECT_TEXT (clean row) w)))
    as (p & wb & Hrun & Hc).
  rewrite Hrun in H. cbv zeta in H. rewrite Hemail in H.
  destruct H as (result & status & line & _ & _ & _ & _ & ->).
  rewrite Hrun. cbn [fst snd].
  exists p. split; [reflexivity|].
  destruct Hc as (Ht & _).
  destruct (render_noted_frame E BODY_TEXT (clean row)
              (render_noted E SUBJECT_TEXT (clean row) w)) as (_ & Ht2 & _).
  destruct (render_noted_frame E SUBJECT_TEXT (clean row) w) as (_ & Ht1 & _).
  assert (Htb : access_token wb = access_token w) by congruence.
  rewrite create_draft_run.
  cbn [printed access_token posted]. rewrite Htb, Htok. cbv zeta. cbn [snd].
  unfold pace.
  destruct (index <? Z.of_nat len_df - 1);
      [destruct (FLOAT_LIMIT <=? Z.abs (delay_ms args));
       [|destruct (SLEEP_MAX_MS <? Z.abs (delay_ms args));
         [|destruct (delay_ms args <? 0)]]|];
    reflexivity.
Qed.

Lemma draft_body_carries_personalization_witness :
  exists personalization,
    (personalize_with_ai
       (fixture_environment (Returned (completion_response (lit " Hello. ")))
          (Some (lit "sk-test")) VNone)
       (clean ada)
       (render_noted
          (fixture_environment (Returned (completion_response (lit " Hello. ")))
             (Some (lit "sk-test")) VNone)
          BODY_TEXT (clean ada)
          (render_noted
             (fixture_environment (Returned (completion_response (lit " Hello. ")))
                (Some (lit "sk-test")) VNone)
             SUBJECT_TEXT (clean ada) signed_in_world))).1 = Returned personalization
    /\ personalization = nl ++ nl ++ lit "Hello.".
Proof.
  destruct (draft_body_carries_personalization
              (fixture_environment (Returned (completion_response (lit " Hello. ")))
                 (Some (lit "sk-test")) VNone)
              (fixture_arguments 0 true) 1 0 ada signed_in_world
              eq_refl eq_refl eq_refl)
    as (personalization & Hp & _).
  exists personalization. split; [exact Hp|].
  vm_compute in Hp. injection Hp as <-. reflexivity.
Defined.

(** X21: with personalization switched off, a contact with an address and
    a token in hand: when the mail API answers the draft request with any
    status other than 201 (a 429, say), the row logged for the contact has
    status ["error"] and an empty draft id, and carries the rendered
    subject. *)
Theorem rejected_draft_logged_as_error (E : environment) (args : arguments)
    (len_df : nat) (index : Z) (row : gmap (list N) pyval) (w : world)
    (response : http_response) :
  ai_personalize args = false ->
  truthy (email_of row) = true ->
  truthy (access_token w) = true ->
  let subject := rendered E SUBJECT_TEXT (clean row) in
  let body := rendered E BODY_TEXT (clean row) in
  requests_post E (posted w)
    (draft_request E (access_token w) (email_of row) subject body)
    = Returned response ->
  status_code response <> 201 ->
  files (process_contact E args len_df index row w).2 =
  with_row (files w) (log_csv args)
    (audit_row (email_of row)
       (get (clean row) (lit "company") (VStr []))
       (get (clean row) (lit "first_name") (VStr []))
       subject (VStr []) (lit "error")).
Proof.
  intros Hai Hemail Htok subject body Hpost Hcode.
  pose proof (process_contact_exact E args len_df index row w) as H.
  unfold prepared in H. rewrite Hai in H. cbv zeta in H. rewrite Hemail in H.
  fold subject body in H.
  destruct H as (result & status & line & Hres & _ & Hstatus & _ & ->).
  set (wa := render_noted E BODY_TEXT (clean row)
               (render_noted E SUBJECT_TEXT (clean row) w)) in *.
  assert (Hwa : posted wa = posted w /\ access_token wa = access_token w
                /\ files wa = files w).
  { subst wa.
    destruct (render_noted_frame E BODY_TEXT (clean row)
                (render_noted E SUBJECT_TEXT (clean row) w)) as (Hp2 & Ht2 & Hf2).
    destruct (render_noted_frame E SUBJECT_TEXT (clean row) w) as (Hp1 & Ht1 & Hf1).
    repeat split; congruence. }
  destruct Hwa as (Hp & Ht & Hf).
  rewrite create_draft_run in Hres.
  cbn [printed access_token posted] in Hres. rewrite Ht, Htok, Hp in Hres.
  cbv zeta in Hres. cbn [fst] in Hres. rewrite Hpost in Hres.
  unfold create_draft_result in Hres.
  apply Z.eqb_neq in Hcode. rewrite Hcode in Hres.
  injection Hres as <-.
  rewrite failure_result_status in Hstatus. injection Hstatus as <-.
  destruct (create_draft_frame E (email_of row) subject body
              (printed (SayCreating (email_of row)) wa)) as (_ & Hf2 & _).
  unfold pace.
  destruct (index <? Z.of_nat len_df - 1);
      [destruct (FLOAT_LIMIT <=? Z.abs (delay_ms args));
       [|destruct (SLEEP_MAX_MS <? Z.abs (delay_ms args));
         [|destruct (delay_ms args <? 0)]]|];
    cbn [snd files paused printed row_logged]; rewrite Hf2; cbn [files printed];
    rewrite Hf; reflexivity.
Qed.

Lemma rejected_draft_logged_as_error_witness :
  files (process_contact (fixture_environment (Returned throttled_response) None VNone)
           (fixture_arguments 0 false) 1 0 ada signed_in_world).2 =
  with_row (files signed_in_world) (lit "log.csv")
    (audit_row (VStr (lit "ada@example.com")) (VStr (lit "Analytical Engines"))
       (VStr (lit "Ada")) SUBJECT_TEXT (VStr []) (lit "error")).
Proof.
  exact (rejected_draft_logged_as_error
           (fixture_environment (Returned throttled_response) None VNone)
           (fixture_arguments 0 false) 1 0 ada signed_in_world throttled_response
           eq_refl eq_refl eq_refl eq_refl ltac:(vm_compute; discriminate)).
Defined.
